(** * OMESlicer: crop descriptors over OME-TIFF files

    A shallow embedding of [src/omeslicer/core.py].

    The class [OMESlicer] is glue code around three libraries: [ome_types]
    (the metadata document and its XML form), [tifffile] (reading the
    embedded XML, writing the output pages) and [pyvips]/[numpy] (decoding
    and cropping a page).  The libraries are not part of the repository, so
    they enter the model as an interface ([Libraries]); the Python objects
    live in a store, because the class hands references around ([self],
    [existing_slicer], [self.ome]) and mutates what they point to. *)

From Stdlib Require Import ZArith String List.
From stdpp Require Import base option list strings gmap pretty.

Open Scope string_scope.
Open Scope Z_scope.
Open Scope list_scope.

(** ** Python values *)

(** An exception: its class and its message. *)
Record Exn := mkExn { exn_class : string; exn_msg : string }.

Definition ValueError (msg : string) : Exn := mkExn "ValueError" msg.
Definition IndexError (msg : string) : Exn := mkExn "IndexError" msg.
Definition AttributeError (msg : string) : Exn := mkExn "AttributeError" msg.

(** The outcome of a call: a value, or a raised exception. *)
Inductive Res (A : Type) : Type :=
| Ok (a : A)
| Raise (e : Exn).
Arguments Ok {A} a.
Arguments Raise {A} e.

(** A reference to an object of the store. *)
Abbreviation loc := nat.

(** The NumPy element types the class names. *)
Inductive dtype : Type :=
| np_uint8 | np_uint16 | np_uint32
| np_int8 | np_int16 | np_int32
| np_float32 | np_float64.

#[global] Instance dtype_eq_dec : EqDecision dtype.
Proof. solve_decision. Defined.

(** ** The metadata document ([ome_types])

    Only the fields the class reads or writes are spelled out; everything
    else a document carries is kept as an opaque payload. *)

(** [ome_types.model.PixelType]: an [Enum] whose members stand for the
    pixel types of the OME schema. *)
Inductive PixelType : Type :=
| INT8 | INT16 | INT32 | UINT8 | UINT16 | UINT32
| FLOAT | DOUBLE | COMPLEXFLOAT | COMPLEXDOUBLE | BIT.

#[global] Instance PixelType_eq_dec : EqDecision PixelType.
Proof. solve_decision. Defined.

(** [member.value]: the name the XML attribute [Type] carries. *)
Definition PixelType_value (t : PixelType) : string :=
  match t with
  | INT8 => "int8" | INT16 => "int16" | INT32 => "int32"
  | UINT8 => "uint8" | UINT16 => "uint16" | UINT32 => "uint32"
  | FLOAT => "float" | DOUBLE => "double"
  | COMPLEXFLOAT => "complex" | COMPLEXDOUBLE => "double-complex"
  | BIT => "bit"
  end.

Record Pixels := mkPixels {
  size_x : Z;
  size_y : Z;
  size_c : Z;
  type : PixelType;
  pixels_rest : string }.

Record Image := mkImage {
  pixels : Pixels;
  image_rest : string }.

Record OME := mkOME {
  images : list Image;
  ome_rest : string }.

(** [px.size_x = v] and [px.size_y = v] on a [Pixels] object. *)
Definition set_size_x (v : Z) (px : Pixels) : Pixels :=
  mkPixels v (size_y px) (size_c px) (type px) (pixels_rest px).

Definition set_size_y (v : Z) (px : Pixels) : Pixels :=
  mkPixels (size_x px) v (size_c px) (type px) (pixels_rest px).

(** The effect, on a document, of storing through [doc.images[0].pixels].
    The class takes this alias only after [doc.images[0]] was found. *)
Definition on_first_pixels (f : Pixels -> Pixels) (d : OME) : OME :=
  match images d with
  | [] => d
  | im :: ims => mkOME (mkImage (f (pixels im)) (image_rest im) :: ims) (ome_rest d)
  end.

(** [range(n)] *)
Definition range (n : Z) : list Z := Z.of_nat <$> seq 0 (Z.to_nat n).

(** [str(n)] for an integer. *)
Definition str (n : Z) : string := pretty n.

(** Truth value of an optional string argument: [None] and the empty string
    are false. *)
Definition truthy_path (p : option string) : option string :=
  match p with
  | Some s => if String.eqb s EmptyString then None else Some s
  | None => None
  end.

(** The dictionary literal of [get_dtype_from_metadata]: its keys are
    strings. *)
Definition dtype_map : gmap string dtype :=
  list_to_map
    [ ("uint8", np_uint8);
      ("uint16", np_uint16);
      ("uint32", np_uint32);
      ("int8", np_int8);
      ("int16", np_int16);
      ("int32", np_int32);
      ("float", np_float32);
      ("double", np_float64) ].

(** A value looked up in a dictionary: a string, or a member of
    [PixelType]. *)
Inductive Key : Type :=
| KeyStr (s : string)
| KeyPixelType (t : PixelType).

(** [d.get(key, default)] on a dictionary whose keys are strings.  A member
    of an [Enum] is equal to itself and to nothing else; in particular it is
    equal to no string, its own value included, so it is never found. *)
Definition dict_get {V} (d : gmap string V) (key : Key) (default_ : V) : V :=
  match key with
  | KeyStr s => default default_ (d !! s)
  | KeyPixelType _ => default_
  end.

(** ** The libraries

    Calls that reach the file system transform a [World]; the others are
    functions that may raise. *)

Class LibraryTypes := {
  World : Type;          (* the file system *)
  VipsImage : Type;      (* pyvips.Image *)
  Buffer : Type;         (* bytes *)
  NDArray : Type;        (* numpy.ndarray *)
  TiffFile : Type;       (* tifffile.TiffFile *)
  TiffWriter : Type }.   (* tifffile.TiffWriter *)

(** The keyword arguments of one [tif.write] call. *)
Record WriteArgs `{LibraryTypes} := mkWriteArgs {
  wa_data : NDArray;
  wa_photometric : string;
  wa_compression : string;
  wa_tile : Z * Z;
  wa_dtype : dtype;
  wa_description : option string;
  wa_metadata : option (list (string * string)) }.
Arguments mkWriteArgs {_} _ _ _ _ _ _ _.

Class Libraries `{LibraryTypes} := {
  (* ome_types *)
  from_xml : option string -> Res OME;
  to_xml : OME -> Res string;
  validate_size : Z -> Res unit;   (* the check made when a size is assigned *)
  (* tifffile *)
  TiffFile_open : string -> World -> Res TiffFile * World;
  TiffFile_ome_metadata : TiffFile -> World -> Res (option string) * World;
  TiffFile_close : TiffFile -> World -> Res unit * World;
  TiffWriter_open : string -> bool -> World -> Res TiffWriter * World;
  TiffWriter_write : TiffWriter -> WriteArgs -> World -> Res unit * World;
  TiffWriter_close : TiffWriter -> World -> Res unit * World;
  (* pyvips *)
  Image_new_from_file : string -> Z -> string -> World -> Res VipsImage * World;
  Image_crop : VipsImage -> Z -> Z -> Z -> Z -> Res VipsImage;
  Image_width : VipsImage -> Z;
  Image_height : VipsImage -> Z;
  Image_write_to_memory : VipsImage -> World -> Res Buffer * World;
  (* numpy *)
  np_ndarray : Buffer -> dtype -> list Z -> Res NDArray }.

Section WithLibraries.
Context `{T : LibraryTypes} {L : Libraries}.

(** What the program does to the outside, in the order it does it. *)
Inductive Event : Type :=
| EvPrint (line : string)
| EvTiffFileOpen (path : string)
| EvTiffFileMetadata
| EvTiffFileClose
| EvNewFromFile (path : string) (page : Z) (access : string)
| EvCrop (img : VipsImage) (x y width height : Z)
| EvWriteToMemory (img : VipsImage)
| EvNdarray (buf : Buffer) (dt : dtype) (shape : list Z)
| EvWriterOpen (path : string) (bigtiff : bool)
| EvWrite (args : WriteArgs)
| EvWriterClose.

(** ** The store *)

(** An [OMESlicer] instance.  An attribute [__init__] has not assigned yet
    reads as [None]; [__init__] assigns each attribute before it returns and
    reads none before assigning it. *)
Record OMESlicer := mkSlicer {
  ome_tiff_path : string;
  pyvips_image : option VipsImage;
  ome_metadata : option string;
  ome : option loc;
  crop_info : option (Z * Z * Z * Z);
  cropped_dimensions : option (Z * Z) }.

Definition set_pyvips_image v (o : OMESlicer) : OMESlicer :=
  mkSlicer (ome_tiff_path o) v (ome_metadata o) (ome o) (crop_info o) (cropped_dimensions o).
Definition set_ome_metadata v (o : OMESlicer) : OMESlicer :=
  mkSlicer (ome_tiff_path o) (pyvips_image o) v (ome o) (crop_info o) (cropped_dimensions o).
Definition set_ome v (o : OMESlicer) : OMESlicer :=
  mkSlicer (ome_tiff_path o) (pyvips_image o) (ome_metadata o) v (crop_info o) (cropped_dimensions o).
Definition set_crop_info v (o : OMESlicer) : OMESlicer :=
  mkSlicer (ome_tiff_path o) (pyvips_image o) (ome_metadata o) (ome o) v (cropped_dimensions o).
Definition set_cropped_dimensions v (o : OMESlicer) : OMESlicer :=
  mkSlicer (ome_tiff_path o) (pyvips_image o) (ome_metadata o) (ome o) (crop_info o) v.

(** Objects are never freed: a reference is an index, allocation appends. *)
Record State := mkState {
  objs : list OMESlicer;   (* OMESlicer instances *)
  docs : list OME;         (* ome_types documents *)
  world : World;           (* the file system *)
  log : list Event }.      (* events so far, oldest first *)

(** ** The monad of Python code: state and exceptions *)

Definition M (A : Type) : Type := State -> Res A * State.

Definition ret {A} (a : A) : M A := fun st => (Ok a, st).

Definition raise {A} (e : Exn) : M A := fun st => (Raise e, st).

Definition bind {A B} (m : M A) (k : A -> M B) : M B :=
  fun st =>
    match m st with
    | (Ok a, st1) => k a st1
    | (Raise e, st1) => (Raise e, st1)
    end.

#[global] Instance M_ret : MRet M := @ret.
#[global] Instance M_bind : MBind M := fun A B k m => bind m k.

(** A value computed by a function that may raise. *)
Definition lift {A} (r : Res A) : M A := fun st => (r, st).

Definition emit (e : Event) : M unit :=
  fun st => (Ok tt, mkState (objs st) (docs st) (world st) (log st ++ [e])).

Definition on_world {A} (op : World -> Res A * World) : M A :=
  fun st =>
    let '(r, w) := op (world st) in
    (r, mkState (objs st) (docs st) w (log st)).

(** A library call on the file system. *)
Definition syscall {A} (e : Event) (op : World -> Res A * World) : M A :=
  emit e ;; on_world op.

(** A library call that touches no file; it is logged all the same. *)
Definition libcall {A} (e : Event) (r : Res A) : M A := emit e ;; lift r.

Definition print (line : string) : M unit := emit (EvPrint line).

(** *** Objects *)

Definition new_obj (o : OMESlicer) : M loc :=
  fun st => (Ok (length (objs st)),
             mkState (objs st ++ [o]) (docs st) (world st) (log st)).

Definition get_obj (self : loc) : M OMESlicer :=
  fun st =>
    match objs st !! self with
    | Some o => (Ok o, st)
    | None => (Raise (AttributeError "no such object"), st)
    end.

(** [self.attr = v], as an update of the object. *)
Definition setattr (self : loc) (f : OMESlicer -> OMESlicer) : M unit :=
  fun st =>
    match objs st !! self with
    | Some o => (Ok tt, mkState (<[self := f o]> (objs st)) (docs st) (world st) (log st))
    | None => (Raise (AttributeError "no such object"), st)
    end.

Definition new_doc (d : OME) : M loc :=
  fun st => (Ok (length (docs st)),
             mkState (objs st) (docs st ++ [d]) (world st) (log st)).

Definition get_doc (r : loc) : M OME :=
  fun st =>
    match docs st !! r with
    | Some d => (Ok d, st)
    | None => (Raise (AttributeError "no such object"), st)
    end.

(** A store through an alias of [doc.images[0].pixels]. *)
Definition set_pixels (r : loc) (f : Pixels -> Pixels) : M unit :=
  fun st =>
    match docs st !! r with
    | Some d => (Ok tt, mkState (objs st) (<[r := on_first_pixels f d]> (docs st))
                                (world st) (log st))
    | None => (Raise (AttributeError "no such object"), st)
    end.

(** [pixels.size_x = v], [pixels.size_y = v]: [ome_types] checks the value
    when it is assigned, and stores it if the check passes. *)
Definition assign_size (r : loc) (f : Z -> Pixels -> Pixels) (v : Z) : M unit :=
  lift (validate_size v) ;; set_pixels r (f v).

(** [copy.deepcopy(doc)]: a new document with the same content. *)
Definition deepcopy (r : loc) : M loc := d ← get_doc r; new_doc d.

(** [self.ome] *)
Definition self_ome (self : loc) : M loc :=
  o ← get_obj self;
  match ome o with
  | Some r => mret r
  | None => raise (AttributeError "ome")
  end.

(** [doc.images[0].pixels], by value. *)
Definition first_pixels (r : loc) : M Pixels :=
  d ← get_doc r;
  match images d with
  | im :: _ => mret (pixels im)
  | [] => raise (IndexError "list index out of range")
  end.

(** [with cm as x: body]: the resource is released on the way out, also
    when the body raises; an exception of the release replaces the body's. *)
Definition finally {A} (body : M A) (exit_ : M unit) : M A :=
  fun st =>
    match body st with
    | (Ok a, st1) =>
        match exit_ st1 with
        | (Ok _, st2) => (Ok a, st2)
        | (Raise e, st2) => (Raise e, st2)
        end
    | (Raise e, st1) =>
        match exit_ st1 with
        | (Ok _, st2) => (Raise e, st2)
        | (Raise e', st2) => (Raise e', st2)
        end
    end.

Definition with_ {R A} (enter : M R) (exit_ : R -> M unit) (body : R -> M A) : M A :=
  r ← enter; finally (body r) (exit_ r).

(** [for x in xs: body], with the locals the body rebinds as [acc]. *)
Fixpoint for_ {A S} (xs : list A) (body : A -> S -> M S) (acc : S) : M S :=
  match xs with
  | [] => mret acc
  | x :: xs' => acc' ← body x acc; for_ xs' body acc'
  end.

(** ** The class *)

(** [_load_ome_metadata] *)
Definition _load_ome_metadata (self : loc) : M (option string) :=
  o ← get_obj self;
  with_ (syscall (EvTiffFileOpen (ome_tiff_path o)) (TiffFile_open (ome_tiff_path o)))
        (fun tif => syscall EvTiffFileClose (TiffFile_close tif))
        (fun tif => syscall EvTiffFileMetadata (TiffFile_ome_metadata tif)).

(** [_update_metadata_for_crop] *)
Definition _update_metadata_for_crop (self : loc) (width height : Z) : M string :=
  r ← self_ome self;
  cropped_ome ← deepcopy r;
  _ ← first_pixels cropped_ome;                (* pixels = cropped_ome.images[0].pixels *)
  assign_size cropped_ome set_size_x width ;;   (* pixels.size_x = width *)
  assign_size cropped_ome set_size_y height ;;  (* pixels.size_y = height *)
  d ← get_doc cropped_ome;
  lift (to_xml d).

(** [__init__].  [x], [y], [width], [height] are the integers [crop] passes;
    the branch taken for a file path does not read them. *)
Definition __init__ (ome_tiff_path0 : option string) (existing_slicer : option loc)
    (x y width height : Z) : M loc :=
  match truthy_path ome_tiff_path0, existing_slicer with
  | Some path, _ =>
      self ← new_obj (mkSlicer path None None None None None);
      setattr self (set_pyvips_image None) ;;
      xml ← _load_ome_metadata self;
      setattr self (set_ome_metadata xml) ;;
      d ← lift (from_xml xml);
      r ← new_doc d;
      setattr self (set_ome (Some r)) ;;
      setattr self (set_crop_info None) ;;
      setattr self (set_cropped_dimensions None) ;;
      mret self
  | None, Some existing =>
      e ← get_obj existing;
      self ← new_obj (mkSlicer (ome_tiff_path e) None None None None None);
      r0 ← self_ome existing;
      r ← deepcopy r0;
      setattr self (set_ome (Some r)) ;;
      setattr self (set_crop_info (Some (x, y, width, height))) ;;
      setattr self (set_cropped_dimensions (Some (width, height))) ;;
      xml ← _update_metadata_for_crop self width height;
      setattr self (set_ome_metadata (Some xml)) ;;
      setattr self (set_pyvips_image None) ;;
      mret self
  | None, None =>
      raise (ValueError "Either ome_tiff_path or existing_slicer must be provided.")
  end.

(** [OMESlicer(path)] *)
Definition OMESlicer_from_path (path : string) : M loc :=
  __init__ (Some path) None 0 0 0 0.

(** [load_pyvips_image].  A pyvips image is a true value, [None] is not. *)
Definition load_pyvips_image (self : loc) (page : Z) : M (option VipsImage) :=
  o ← get_obj self;
  match pyvips_image o with
  | None =>
      img ← syscall (EvNewFromFile (ome_tiff_path o) page "sequential")
                    (Image_new_from_file (ome_tiff_path o) page "sequential");
      setattr self (set_pyvips_image (Some img)) ;;
      o' ← get_obj self;
      mret (pyvips_image o')
  | Some _ =>
      mret (pyvips_image o)
  end.

(** [get_image_dimensions].  A tuple is a true value, [None] is not. *)
Definition get_image_dimensions (self : loc) : M (Z * Z * Z) :=
  o ← get_obj self;
  '(width, height) ←
    match cropped_dimensions o with
    | Some (width, height) => mret (width, height)
    | None =>
        r ← self_ome self;
        px ← first_pixels r;
        mret (size_x px, size_y px)
    end;
  r ← self_ome self;
  px ← first_pixels r;
  mret (width, height, size_c px).

(** [get_number_of_channels] *)
Definition get_number_of_channels (self : loc) : M Z :=
  r ← self_ome self;
  px ← first_pixels r;
  mret (size_c px).

(** [get_dtype_from_metadata].  [pixels.type] is a member of [PixelType],
    and it is the member itself, not its value, that is looked up. *)
Definition get_dtype_from_metadata (self : loc) : M dtype :=
  r ← self_ome self;
  px ← first_pixels r;
  let pixel_type := type px in
  mret (dict_get dtype_map (KeyPixelType pixel_type) np_uint16).

(** [crop] *)
Definition crop (self : loc) (x y width height : Z) : M loc :=
  __init__ None (Some self) x y width height.

(** The body of the first loop of [save], for channel [c]. *)
Definition extract_channel (path : string) (x y width height num_channels : Z)
    (dt : dtype) (c : Z) (cropped_channel_arrays : list NDArray) : M (list NDArray) :=
  print ("Processing channel " +:+ str (c + 1) +:+ "/" +:+ str num_channels) ;;
  channel_image ← syscall (EvNewFromFile path c "sequential")
                          (Image_new_from_file path c "sequential");
  cropped_channel ← libcall (EvCrop channel_image x y width height)
                            (Image_crop channel_image x y width height);
  buf ← syscall (EvWriteToMemory cropped_channel) (Image_write_to_memory cropped_channel);
  let shape := [Image_height cropped_channel; Image_width cropped_channel] in
  channel_array ← libcall (EvNdarray buf dt shape) (np_ndarray buf dt shape);
  mret (cropped_channel_arrays ++ [channel_array]).

(** The body of the second loop of [save], for channel [c]. *)
Definition write_channel (tif : TiffWriter) (metadata : option string)
    (num_channels : Z) (cropped_channel_arrays : list NDArray) (c : Z) (_ : unit) : M unit :=
  print ("Writing channel " +:+ str (c + 1) +:+ "/" +:+ str num_channels) ;;
  data ← match cropped_channel_arrays !! Z.to_nat c with
         | Some a => mret a
         | None => raise (IndexError "list index out of range")
         end;
  let args :=
    mkWriteArgs data "minisblack" "lzw" (512, 512) np_uint16
                (if decide (c = 0) then metadata else None) None in
  syscall (EvWrite args) (TiffWriter_write tif args).

(** [save].  [self.ome_tiff_path] and [self.ome_metadata] are read once:
    nothing [save] calls assigns an attribute of [self]. *)
Definition save (self : loc) (output_path : string) : M unit :=
  o ← get_obj self;
  match crop_info o with
  | None => raise (ValueError "This slicer instance has no crop info; nothing to save.")
  | Some (x, y, width, height) =>
      num_channels ← get_number_of_channels self;
      dt ← get_dtype_from_metadata self;
      cropped_channel_arrays ←
        for_ (range num_channels)
             (extract_channel (ome_tiff_path o) x y width height num_channels dt) [];
      with_ (syscall (EvWriterOpen output_path true) (TiffWriter_open output_path true))
            (fun tif => syscall EvWriterClose (TiffWriter_close tif))
            (fun tif =>
               for_ (range num_channels)
                    (write_channel tif (ome_metadata o) num_channels cropped_channel_arrays) tt)
  end.

(** [get_ome_metadata] *)
Definition get_ome_metadata (self : loc) : M (option string) :=
  o ← get_obj self;
  mret (ome_metadata o).

(** ** Callers *)

(** [self.crop(...)] once per region, each result dropped.  A call that
    raises leaves the store as it was when it raised. *)
Fixpoint crops (self : loc) (regions : list (Z * Z * Z * Z)) (st : State) : State :=
  match regions with
  | [] => st
  | (x, y, width, height) :: rest => crops self rest (crop self x y width height st).2
  end.

(** [self.crop(...).crop(...)...]: each crop is taken of the one before. *)
Fixpoint crop_chain (self : loc) (regions : list (Z * Z * Z * Z)) : M loc :=
  match regions with
  | [] => mret self
  | (x, y, width, height) :: rest =>
      child ← crop self x y width height; crop_chain child rest
  end.

(** ** Reading a log *)

(** The document [_update_metadata_for_crop] serialises. *)
Definition crop_document (width height : Z) (d : OME) : OME :=
  on_first_pixels (set_size_y height) (on_first_pixels (set_size_x width) d).

(** The events logged between two states. *)
Definition events_since (st st' : State) : list Event :=
  drop (length (log st)) (log st').

(** From [st] to [st'] the store is untouched and [evs] was logged. *)
Definition logged (st st' : State) (evs : list Event) : Prop :=
  st' = mkState (objs st) (docs st) (world st') (log st ++ evs).

(** Calls that decode, crop or buffer a channel. *)
Definition is_extraction (e : Event) : bool :=
  match e with
  | EvNewFromFile _ _ _ | EvCrop _ _ _ _ _ | EvWriteToMemory _ | EvNdarray _ _ _ => true
  | _ => false
  end.

(** Calls on the output file. *)
Definition is_output (e : Event) : bool :=
  match e with
  | EvWriterOpen _ _ | EvWrite _ | EvWriterClose => true
  | _ => false
  end.

(** The pages opened for decoding, in order. *)
Definition opened (evs : list Event) : list (string * Z) :=
  omap (fun e => match e with EvNewFromFile p c _ => Some (p, c) | _ => None end) evs.

(** The arrays [np.ndarray] built, in order. *)
Definition buffered (evs : list Event) : list NDArray :=
  omap (fun e => match e with
                 | EvNdarray buf dt shape =>
                     match np_ndarray buf dt shape with Ok a => Some a | Raise _ => None end
                 | _ => None
                 end) evs.

(** The crops asked for, in order: the image and the region. *)
Definition crops_made (evs : list Event) : list (VipsImage * (Z * Z * Z * Z)) :=
  omap (fun e => match e with
                 | EvCrop img x y width height => Some (img, (x, y, width, height))
                 | _ => None
                 end) evs.

(** [img] is what decoding page [c] of the file [path] gave, in some state
    of the file system. *)
Definition page_of (path : string) (c : Z) (img : VipsImage) : Prop :=
  exists w w', Image_new_from_file path c "sequential" w = (Ok img, w').

(** The arrays built, each with the element type it was built with. *)
Definition built (evs : list Event) : list (NDArray * dtype) :=
  omap (fun e => match e with
                 | EvNdarray buf dt shape =>
                     match np_ndarray buf dt shape with
                     | Ok a => Some (a, dt)
                     | Raise _ => None
                     end
                 | _ => None
                 end) evs.

(** The element type each [np.ndarray] call asked for, in order. *)
Definition buffered_dtypes (evs : list Event) : list dtype :=
  omap (fun e => match e with EvNdarray _ dt _ => Some dt | _ => None end) evs.

(** The [tif.write] calls, in order: the pages of the output. *)
Definition written (evs : list Event) : list WriteArgs :=
  omap (fun e => match e with EvWrite a => Some a | _ => None end) evs.

(** The output files opened, in order. *)
Definition created (evs : list Event) : list string :=
  omap (fun e => match e with EvWriterOpen p _ => Some p | _ => None end) evs.

(** The event is no decoding of another file than [path], and no crop of
    another region than [(x, y, width, height)] of a page of [path]. *)
Definition reads_region (path : string) (x y width height : Z) (e : Event) : Prop :=
  match e with
  | EvNewFromFile p _ _ => p = path
  | EvCrop img x' y' width' height' =>
      (x', y', width', height') = (x, y, width, height) /\
      exists c w w', Image_new_from_file path c "sequential" w = (Ok img, w')
  | _ => True
  end.

(** The page [save] writes for channel [c]. *)
Definition page_for (metadata : option string) (arrays : list NDArray) (c : Z)
    : option WriteArgs :=
  a ← arrays !! Z.to_nat c;
  Some (mkWriteArgs a "minisblack" "lzw" (512, 512) np_uint16
          (if decide (c = 0) then metadata else None) None).

(** The pages [save] writes for the arrays it buffered. *)
Definition pages (metadata : option string) (arrays : list NDArray) : list WriteArgs :=
  imap (fun i a => mkWriteArgs a "minisblack" "lzw" (512, 512) np_uint16
                     (if decide (i = 0%nat) then metadata else None) None) arrays.

(** The lines printed, in order. *)
Definition printed (evs : list Event) : list string :=
  omap (fun e => match e with EvPrint line => Some line | _ => None end) evs.

(** The calls on the output file, in order. *)
Definition output_calls (evs : list Event) : list Event :=
  filter (fun e => is_output e = true) evs.

(** A progress line or a page write: what the second loop of [save] does. *)
Definition is_page_event (e : Event) : bool :=
  match e with
  | EvPrint _ | EvWrite _ => true
  | _ => false
  end.

(** The progress lines of the two loops of [save], for channel [c] of [n]. *)
Definition processing_line (n c : Z) : string :=
  "Processing channel " +:+ str (c + 1) +:+ "/" +:+ str n.

Definition writing_line (n c : Z) : string :=
  "Writing channel " +:+ str (c + 1) +:+ "/" +:+ str n.

End WithLibraries.

(** ** A small file system to run the class on

    Pages are grids of samples; a file is its list of pages.  The XML form
    of a document is a line of text, and [from_xml] reads the lines it
    knows. *)

Module Ref.

Record Page := mkPage {
  pg_width : Z;
  pg_height : Z;
  pg_samples : list Z;                (* row after row *)
  pg_description : option string }.

Record Array := mkArray {
  arr_dtype : dtype;
  arr_shape : list Z;
  arr_samples : list Z }.

Definition FileNotFoundError (msg : string) : Exn := mkExn "FileNotFoundError" msg.
Definition ValidationError (msg : string) : Exn := mkExn "ValidationError" msg.
Definition VipsError (msg : string) : Exn := mkExn "pyvips.error.Error" msg.
Definition TypeError (msg : string) : Exn := mkExn "TypeError" msg.
Definition XMLError (msg : string) : Exn := mkExn "XMLSyntaxError" msg.

Definition render (d : OME) : string :=
  match images d with
  | [] => "<OME/>"
  | im :: _ =>
      "<OME><Pixels SizeX=" +:+ str (size_x (pixels im))
        +:+ " SizeY=" +:+ str (size_y (pixels im))
        +:+ " SizeC=" +:+ str (size_c (pixels im))
        +:+ " Type=" +:+ PixelType_value (type (pixels im)) +:+ "/></OME>"
  end.

Definition doc (sx sy sc : Z) (t : PixelType) : OME :=
  mkOME [mkImage (mkPixels sx sy sc t EmptyString) EmptyString] EmptyString.

(** The documents [parse] knows. *)
Definition known : list OME :=
  [ doc 4 3 2 UINT16; doc 4 3 2 UINT8; doc 10000 8000 3 UINT16; mkOME [] EmptyString ].

Definition parse (xml : option string) : Res OME :=
  match xml with
  | None => Raise (TypeError "expected a string")
  | Some s =>
      match filter (fun d => String.eqb (render d) s) known with
      | d :: _ => Ok d
      | [] => Raise (XMLError s)
      end
  end.

(** A size is a positive integer. *)
Definition check_size (v : Z) : Res unit :=
  if decide (1 <= v) then Ok tt
  else Raise (ValidationError "Input should be greater than or equal to 1").

Definition row (img : Page) (x width y : Z) : list Z :=
  take (Z.to_nat width) (drop (Z.to_nat (y * pg_width img + x)) (pg_samples img)).

Definition crop_page (img : Page) (x y width height : Z) : Res Page :=
  if decide (0 <= x /\ 0 <= y /\ 0 < width /\ 0 < height /\
             x + width <= pg_width img /\ y + height <= pg_height img)
  then Ok (mkPage width height
             (concat ((fun j => row img x width (y + j)) <$> range height)) None)
  else Raise (VipsError "extract_area: bad extract area").

(** A file system: the files by path, the newest binding first. *)
Definition Files : Type := list (string * list Page).

Fixpoint find (path : string) (fs : Files) : option (list Page) :=
  match fs with
  | [] => None
  | (p, pgs) :: fs' => if String.eqb p path then Some pgs else find path fs'
  end.

Definition store (path : string) (pgs : list Page) (fs : Files) : Files :=
  (path, pgs) :: fs.

#[global] Instance types : LibraryTypes := {|
  World := Files;
  VipsImage := Page;
  Buffer := list Z;
  NDArray := Array;
  TiffFile := string;
  TiffWriter := string |}.

Definition open_read (path : string) (fs : Files) : Res string * Files :=
  match find path fs with
  | Some _ => (Ok path, fs)
  | None => (Raise (FileNotFoundError path), fs)
  end.

Definition read_metadata (path : string) (fs : Files) : Res (option string) * Files :=
  match find path fs with
  | Some (pg :: _) => (Ok (pg_description pg), fs)
  | Some [] => (Ok None, fs)
  | None => (Raise (FileNotFoundError path), fs)
  end.

Definition read_page (path : string) (page : Z) (access : string) (fs : Files)
    : Res Page * Files :=
  match find path fs with
  | Some pgs =>
      match (if decide (0 <= page) then pgs !! Z.to_nat page else None) with
      | Some pg => (Ok pg, fs)
      | None => (Raise (VipsError "bad page number"), fs)
      end
  | None => (Raise (FileNotFoundError path), fs)
  end.

Definition write_page (path : string) (args : WriteArgs) (fs : Files) : Res unit * Files :=
  match find path fs, arr_shape (wa_data args) with
  | Some pgs, [height; width] =>
      (Ok tt, store path (pgs ++ [mkPage width height (arr_samples (wa_data args))
                                         (wa_description args)]) fs)
  | _, _ => (Raise (ValueError "cannot write"), fs)
  end.

Definition make_array (buf : list Z) (dt : dtype) (shape : list Z) : Res Array :=
  match shape with
  | [height; width] =>
      if decide (Z.of_nat (length buf) = height * width)
      then Ok (mkArray dt shape buf)
      else Raise (TypeError "buffer is too small for requested array")
  | _ => Raise (ValueError "shape")
  end.

#[global] Instance libraries : Libraries := {|
  from_xml := parse;
  to_xml := fun d => Ok (render d);
  validate_size := check_size;
  TiffFile_open := open_read;
  TiffFile_ome_metadata := read_metadata;
  TiffFile_close := fun _ fs => (Ok tt, fs);
  TiffWriter_open := fun path _ fs => (Ok path, store path [] fs);
  TiffWriter_write := write_page;
  TiffWriter_close := fun _ fs => (Ok tt, fs);
  Image_new_from_file := read_page;
  Image_crop := crop_page;
  Image_width := pg_width;
  Image_height := pg_height;
  Image_write_to_memory := fun img fs => (Ok (pg_samples img), fs);
  np_ndarray := make_array |}.

(** A two-channel 4x3 image of 16-bit samples. *)
Definition small_tiff : list Page :=
  [ mkPage 4 3 [ 0;  1;  2;  3;
                10; 11; 12; 13;
                20; 21; 22; 23] (Some (render (doc 4 3 2 UINT16)));
    mkPage 4 3 [100; 101; 102; 103;
                110; 111; 112; 113;
                120; 121; 122; 123] None ].

(** A file whose metadata declares 8-bit samples. *)
Definition bytes_tiff : list Page :=
  match small_tiff with
  | pg :: pgs =>
      mkPage (pg_width pg) (pg_height pg) (pg_samples pg)
             (Some (render (doc 4 3 2 UINT8))) :: pgs
  | [] => []
  end.

Definition disk : Files :=
  [("small.ome.tiff", small_tiff); ("bytes.ome.tiff", bytes_tiff)].

Definition boot : State := mkState [] [] disk [].

End Ref.


(** ** Runs on the small file system *)

(** The state after [OMESlicer("small.ome.tiff")]: the descriptor is object 0. *)
Definition loaded : State := (OMESlicer_from_path "small.ome.tiff" Ref.boot).2.

(** The state after [crop(1, 1, 2, 2)] of object 0: the crop is object 1. *)
Definition cropped : State := (crop 0 1 1 2 2 loaded).2.

(** The state after the crop was saved to ["out.tiff"]. *)
Definition saved : State := (save 1 "out.tiff" cropped).2.

(** The state after [crop(1, 0, 3, 3).crop(1, 1, 2, 2)] of object 0: the
    last crop is object 2. *)
Definition chained : State := (crop_chain 0 [(1, 0, 3, 3); (1, 1, 2, 2)] loaded).2.

(** The state after the last crop of the chain was saved to ["out.tiff"]. *)
Definition saved_chain : State := (save 2 "out.tiff" chained).2.

(** The descriptor of the file declared as 8-bit samples, and its crop. *)
Definition loaded8 : State := (OMESlicer_from_path "bytes.ome.tiff" Ref.boot).2.
Definition cropped8 : State := (crop 0 1 1 2 2 loaded8).2.

(** The descriptor of ["small.ome.tiff"] and its document. *)
Definition small_slicer : OMESlicer :=
  mkSlicer "small.ome.tiff" None (Some (Ref.render (Ref.doc 4 3 2 UINT16)))
           (Some 0%nat) None None.

(** A file whose metadata declares no image, and the state after
    [OMESlicer("bare.ome.tiff")]. *)
Definition bare_disk : Ref.Files :=
  [("bare.ome.tiff", [Ref.mkPage 1 1 [0] (Some (Ref.render (mkOME [] EmptyString)))])].

Definition loaded_bare : State :=
  (OMESlicer_from_path "bare.ome.tiff" (mkState [] [] bare_disk [])).2.

(** The state after [crop(3, 2, 2, 2)] of object 0 of [loaded]: a region
    that leaves the 4x3 image. *)
Definition cropped_outside : State := (crop 0 3 2 2 2 loaded).2.

(** A cropped descriptor whose document declares no channel. *)
Definition no_channel : State :=
  mkState [mkSlicer "small.ome.tiff" None (Some "<OME/>") (Some 0%nat)
                    (Some (0, 0, 1, 1)) (Some (1, 1))]
          [Ref.doc 4 3 0 UINT16] Ref.disk [].

(** The crop of [cropped], the crop of [cropped_outside], and the image of
    the document they hold. *)
Definition small_crop : OMESlicer :=
  mkSlicer "small.ome.tiff" None (Some (Ref.render (Ref.doc 2 2 2 UINT16)))
           (Some 1%nat) (Some (1, 1, 2, 2)) (Some (2, 2)).

Definition outside_crop : OMESlicer :=
  mkSlicer "small.ome.tiff" None (Some (Ref.render (Ref.doc 2 2 2 UINT16)))
           (Some 1%nat) (Some (3, 2, 2, 2)) (Some (2, 2)).

Definition small_image : Image :=
  mkImage (mkPixels 4 3 2 UINT16 EmptyString) EmptyString.

(** * Properties *)

Section Proofs.
Context `{T : LibraryTypes} {L : Libraries}.

(** ** The store *)

Lemma lookup_snoc {A} (l : list A) (a : A) : (l ++ [a]) !! length l = Some a.
Proof. by apply list_lookup_middle. Qed.

Lemma insert_snoc {A} (l : list A) (a v : A) : <[length l := v]> (l ++ [a]) = l ++ [v].
Proof. induction l as [|b l IH]; simpl; [done | by rewrite IH]. Qed.

Ltac unfold_ops :=
  unfold mbind, M_bind, bind, mret, M_ret, ret, raise, lift, emit, on_world, syscall,
    libcall, print, new_obj, get_obj, setattr, new_doc, get_doc, assign_size, set_pixels,
    deepcopy,
    self_ome, first_pixels, with_, finally.

(** Rewrite a lookup or a library result the context knows. *)
Ltac run_step :=
  first
  [ rewrite lookup_snoc
  | rewrite insert_snoc
  | match goal with
    | H : ?l !! ?i = Some ?v |- context [ (?l ++ ?l') !! ?i ] =>
        rewrite (lookup_app_l_Some l l' i v H)
    | H : ?l !! ?i = _ |- context [ ?l !! ?i ] => rewrite H
    | H : ome ?e = _ |- context [ ome ?e ] => rewrite H
    | H : images ?e = _ |- context [ images ?e ] => rewrite H
    | H : crop_info ?e = _ |- context [ crop_info ?e ] => rewrite H
    | H : cropped_dimensions ?e = _ |- context [ cropped_dimensions ?e ] => rewrite H
    | H : pyvips_image ?e = _ |- context [ pyvips_image ?e ] => rewrite H
    | H : to_xml ?e = _ |- context [ to_xml ?e ] => rewrite H
    | H : validate_size ?v = _ |- context [ validate_size ?v ] => rewrite H
    | H : from_xml ?e = _ |- context [ from_xml ?e ] => rewrite H
    end ].

(** Run the code as far as the context decides it. *)
Ltac run := repeat (progress (simpl; unfold_ops; simpl) || run_step).

(** *** [crop] *)

Lemma crop_run self x y width height st e r d im ims xml :
  objs st !! self = Some e -> ome e = Some r -> docs st !! r = Some d ->
  images d = im :: ims ->
  to_xml (crop_document width height d) = Ok xml ->
  validate_size width = Ok tt -> validate_size height = Ok tt ->
  crop self x y width height st =
    (Ok (length (objs st)),
     mkState (objs st ++ [mkSlicer (ome_tiff_path e) None (Some xml)
                            (Some (length (docs st)))
                            (Some (x, y, width, height)) (Some (width, height))])
             (docs st ++ [d; crop_document width height d]) (world st) (log st)).
Proof.
  intros Hself Home Hdoc Him Hxml Hvw Hvh. destruct st as [os ds w lg]; simpl in *.
  unfold crop_document in *. unfold crop, __init__, _update_metadata_for_crop.
  run. by rewrite <- app_assoc.
Qed.

(** Close a goal [st' = mkState (objs st ++ _) (docs st ++ _) _ _]. *)
Ltac frame_done :=
  eexists _, _; f_equal;
  first [ reflexivity | symmetry; apply app_nil_r | rewrite <- app_assoc; reflexivity ].

(** Whatever [crop] returns, it only allocates. *)
Lemma crop_frame self x y width height st :
  exists os ds,
    (crop self x y width height st).2 =
      mkState (objs st ++ os) (docs st ++ ds) (world st) (log st).
Proof.
  destruct st as [os ds w lg].
  unfold crop, __init__, _update_metadata_for_crop; simpl.
  destruct (os !! self) as [e|] eqn:Hself; run; [| frame_done].
  destruct (ome e) as [r|] eqn:Home; run; [| frame_done].
  destruct (ds !! r) as [d|] eqn:Hdoc; run; [| frame_done].
  destruct (images d) as [|im ims] eqn:Him; run; [frame_done |].
  destruct (validate_size width) as [[]|ex] eqn:Hvw; run; [| frame_done].
  destruct (validate_size height) as [[]|ex] eqn:Hvh; run; [| frame_done].
  destruct (to_xml _) as [xml|ex] eqn:Hxml; run; frame_done.
Qed.

(** When [crop] returns, it ran as [crop_run] says. *)
Lemma crop_inv self x y width height st c st' :
  crop self x y width height st = (Ok c, st') ->
  exists e r d im ims xml,
    objs st !! self = Some e /\ ome e = Some r /\ docs st !! r = Some d /\
    images d = im :: ims /\ to_xml (crop_document width height d) = Ok xml /\
    validate_size width = Ok tt /\ validate_size height = Ok tt.
Proof.
  destruct st as [os ds w lg].
  unfold crop_document, crop, __init__, _update_metadata_for_crop; simpl.
  destruct (os !! self) as [e|] eqn:Hself; run; [| done].
  destruct (ome e) as [r|] eqn:Home; run; [| done].
  destruct (ds !! r) as [d|] eqn:Hdoc; run; [| done].
  destruct (images d) as [|im ims] eqn:Him; run; [done |].
  destruct (validate_size width) as [[]|ex] eqn:Hvw; run; [| done].
  destruct (validate_size height) as [[]|ex] eqn:Hvh; run; [| done].
  destruct (to_xml _) as [xml|ex] eqn:Hxml; run; [| done].
  intros _. by exists e, r, d, im, ims, xml.
Qed.

(** *** Construction from a path *)

Lemma from_path_inv path st self st' :
  OMESlicer_from_path path st = (Ok self, st') ->
  exists tif w1 xml w2 w3 d,
    TiffFile_open path (world st) = (Ok tif, w1) /\
    TiffFile_ome_metadata tif w1 = (Ok xml, w2) /\
    TiffFile_close tif w2 = (Ok tt, w3) /\
    from_xml xml = Ok d /\
    self = length (objs st) /\
    st' = mkState (objs st ++ [mkSlicer path None xml (Some (length (docs st))) None None])
                  (docs st ++ [d]) w3
                  (log st ++ [EvTiffFileOpen path; EvTiffFileMetadata; EvTiffFileClose]).
Proof.
  destruct st as [os ds w lg].
  unfold OMESlicer_from_path, __init__, _load_ome_metadata; simpl.
  destruct (String.eqb path EmptyString) eqn:Hpath; run; [done |].
  destruct (TiffFile_open path w) as [[tif|ex] w1] eqn:Hopen; run; [| done].
  destruct (TiffFile_ome_metadata tif w1) as [[xml|ex] w2] eqn:Hmeta; run;
    (destruct (TiffFile_close tif w2) as [[[]|ex'] w3] eqn:Hclose; run; [| done]);
    [| done].
  destruct (from_xml xml) as [d|ex] eqn:Hxml; run; [| done].
  intros [= <- <-]. exists tif, w1, xml, w2, w3, d.
  split_and!; try done. by rewrite <- !app_assoc.
Qed.

(** *** The accessors *)

Lemma get_image_dimensions_cropped self st o width height r d im ims :
  objs st !! self = Some o -> cropped_dimensions o = Some (width, height) ->
  ome o = Some r -> docs st !! r = Some d -> images d = im :: ims ->
  get_image_dimensions self st = (Ok (width, height, size_c (pixels im)), st).
Proof.
  intros Hself Hdims Home Hdoc Him. unfold get_image_dimensions. by run.
Qed.

Lemma get_number_of_channels_run self st o r d im ims :
  objs st !! self = Some o -> ome o = Some r -> docs st !! r = Some d ->
  images d = im :: ims ->
  get_number_of_channels self st = (Ok (size_c (pixels im)), st).
Proof.
  intros Hself Home Hdoc Him. unfold get_number_of_channels. by run.
Qed.

Lemma get_dtype_from_metadata_run self st o r d im ims :
  objs st !! self = Some o -> ome o = Some r -> docs st !! r = Some d ->
  images d = im :: ims ->
  get_dtype_from_metadata self st = (Ok np_uint16, st).
Proof.
  intros Hself Home Hdoc Him. unfold get_dtype_from_metadata. by run.
Qed.

(** The element type, when the accessor returns one. *)
Lemma get_dtype_from_metadata_uint16 self st t :
  (get_dtype_from_metadata self st).1 = Ok t -> t = np_uint16.
Proof.
  unfold get_dtype_from_metadata.
  destruct (objs st !! self) as [o|] eqn:Hself; run; [| done].
  destruct (ome o) as [r|] eqn:Home; run; [| done].
  destruct (docs st !! r) as [d|] eqn:Hdoc; run; [| done].
  destruct (images d) as [|im ims] eqn:Him; run; [done |].
  by intros [= <-].
Qed.

(** A query never changes the state. *)
Lemma get_number_of_channels_pure self st : (get_number_of_channels self st).2 = st.
Proof.
  unfold get_number_of_channels.
  destruct (objs st !! self) as [o|] eqn:Hself; run; [| done].
  destruct (ome o) as [r|] eqn:Home; run; [| done].
  destruct (docs st !! r) as [d|] eqn:Hdoc; run; [| done].
  by destruct (images d) as [|im ims] eqn:Him; run.
Qed.

Lemma get_dtype_from_metadata_pure self st : (get_dtype_from_metadata self st).2 = st.
Proof.
  unfold get_dtype_from_metadata.
  destruct (objs st !! self) as [o|] eqn:Hself; run; [| done].
  destruct (ome o) as [r|] eqn:Home; run; [| done].
  destruct (docs st !! r) as [d|] eqn:Hdoc; run; [| done].
  by destruct (images d) as [|im ims] eqn:Him; run.
Qed.

(** *** The two loops of [save] *)

Lemma logged_nil st : logged st st [].
Proof. destruct st; unfold logged; simpl. by rewrite app_nil_r. Qed.

Lemma logged_app st st1 st2 evs1 evs2 :
  logged st st1 evs1 -> logged st1 st2 evs2 -> logged st st2 (evs1 ++ evs2).
Proof.
  unfold logged. intros -> ->. simpl. by rewrite app_assoc.
Qed.

Lemma logged_events_since st st' evs : logged st st' evs -> events_since st st' = evs.
Proof.
  unfold logged, events_since. intros ->. simpl. by rewrite drop_app_length.
Qed.

Ltac logged_done :=
  unfold logged; simpl; f_equal; rewrite <- ?app_assoc; simpl; reflexivity.

Lemma extract_channel_steps path x y width height n dt c acc st res st' :
  extract_channel path x y width height n dt c acc st = (res, st') ->
  exists evs,
    logged st st' evs /\
    Forall (fun e => is_output e = false) evs /\
    Forall (reads_region path x y width height) evs /\
    Forall (fun t => t = dt) (buffered_dtypes evs) /\
    match res with
    | Ok arrs => exists a, arrs = acc ++ [a] /\ opened evs = [(path, c)] /\ buffered evs = [a]
    | Raise _ => True
    end.
Proof.
  destruct st as [os ds w lg]. unfold extract_channel; run.
  destruct (Image_new_from_file path c "sequential" w) as [[img|ex] w1] eqn:Hopen; run.
  2:{ intros [= <- <-]. eexists. split; [logged_done |]. repeat constructor. }
  destruct (Image_crop img x y width height) as [cimg|ex] eqn:Hcrop; run.
  2:{ intros [= <- <-]. eexists. split; [logged_done |].
      split; [repeat constructor |]. split; [| by repeat constructor].
      repeat constructor; simpl; eauto. }
  destruct (Image_write_to_memory cimg w1) as [[buf|ex] w2] eqn:Hmem; run.
  2:{ intros [= <- <-]. eexists. split; [logged_done |].
      split; [repeat constructor |]. split; [| by repeat constructor].
      repeat constructor; simpl; eauto. }
  destruct (np_ndarray buf dt _) as [a|ex] eqn:Hnd; run.
  all: intros [= <- <-]; eexists; (split; [logged_done |]).
  all: split; [repeat constructor |].
  all: split; [repeat constructor; simpl; eauto |].
  all: split; [by repeat constructor |]; try done.
  exists a. unfold buffered; simpl. by rewrite Hnd.
Qed.

Lemma opened_app evs1 evs2 : opened (evs1 ++ evs2) = opened evs1 ++ opened evs2.
Proof. apply omap_app. Qed.

Lemma buffered_app evs1 evs2 : buffered (evs1 ++ evs2) = buffered evs1 ++ buffered evs2.
Proof. apply omap_app. Qed.

Lemma buffered_dtypes_app evs1 evs2 :
  buffered_dtypes (evs1 ++ evs2) = buffered_dtypes evs1 ++ buffered_dtypes evs2.
Proof. apply omap_app. Qed.

Lemma written_app evs1 evs2 : written (evs1 ++ evs2) = written evs1 ++ written evs2.
Proof. apply omap_app. Qed.

Lemma created_app evs1 evs2 : created (evs1 ++ evs2) = created evs1 ++ created evs2.
Proof. apply omap_app. Qed.

Lemma extract_loop path x y width height n dt cs acc st res st' :
  for_ cs (extract_channel path x y width height n dt) acc st = (res, st') ->
  exists evs,
    logged st st' evs /\
    Forall (fun e => is_output e = false) evs /\
    Forall (reads_region path x y width height) evs /\
    Forall (fun t => t = dt) (buffered_dtypes evs) /\
    match res with
    | Ok arrs =>
        arrs = acc ++ buffered evs /\ opened evs = pair path <$> cs /\
        length (buffered evs) = length cs
    | Raise _ => True
    end.
Proof.
  revert acc st. induction cs as [|c cs IH]; intros acc st; simpl.
  - intros [= <- <-]. exists []. split; [apply logged_nil |].
    repeat split; try constructor. by rewrite app_nil_r.
  - unfold mbind, M_bind, bind.
    destruct (extract_channel _ _ _ _ _ _ _ _ _ st) as [[acc1|ex] st1] eqn:Hstep.
    + apply extract_channel_steps in Hstep
        as (evs1 & Hlog1 & Hout1 & Hreg1 & Hdt1 & a & -> & Hop1 & Hbuf1).
      intros Hrest. apply IH in Hrest as (evs2 & Hlog2 & Hout2 & Hreg2 & Hdt2 & Hres).
      exists (evs1 ++ evs2). split; [by eapply logged_app |].
      split; [by apply Forall_app |]. split; [by apply Forall_app |].
      split; [rewrite buffered_dtypes_app; by apply Forall_app |].
      destruct res as [arrs|ex]; [| done].
      destruct Hres as (-> & Hop2 & Hlen).
      rewrite buffered_app, opened_app, Hbuf1, Hop1, Hop2. simpl.
      split; [by rewrite <- app_assoc |]. split; [done |]. by rewrite Hlen.
    + apply extract_channel_steps in Hstep as (evs1 & Hlog1 & Hout1 & Hreg1 & Hdt1 & _).
      intros [= <- <-]. by exists evs1.
Qed.

Lemma write_channel_steps tif metadata n arrs c st res st' :
  write_channel tif metadata n arrs c tt st = (res, st') ->
  exists evs,
    logged st st' evs /\
    Forall (fun e => is_extraction e = false) evs /\
    created evs = [] /\
    match res with
    | Ok _ => Some <$> written evs = [page_for metadata arrs c]
    | Raise _ => written evs = [] \/ Some <$> written evs = [page_for metadata arrs c]
    end.
Proof.
  destruct st as [os ds w lg]. unfold write_channel, page_for; run.
  destruct (arrs !! Z.to_nat c) as [a|] eqn:Ha; run.
  2:{ intros [= <- <-]. eexists. split; [logged_done |].
      split; [repeat constructor |]. split; [done |]. by left. }
  destruct (TiffWriter_write _ _ _) as [[[]|ex] w1] eqn:Hwrite; run.
  all: intros [= <- <-]; eexists; (split; [logged_done |]).
  all: split; [repeat constructor |]; split; [done |].
  - done.
  - by right.
Qed.

Lemma write_loop tif metadata n arrs cs st res st' :
  for_ cs (write_channel tif metadata n arrs) tt st = (res, st') ->
  exists evs k,
    logged st st' evs /\
    Forall (fun e => is_extraction e = false) evs /\
    created evs = [] /\
    Some <$> written evs = page_for metadata arrs <$> take k cs /\
    (forall u, res = Ok u -> k = length cs).
Proof.
  revert st. induction cs as [|c cs IH]; intros st; simpl.
  - intros [= <- <-]. exists [], 0%nat. split; [apply logged_nil |]. by repeat split.
  - unfold mbind, M_bind, bind.
    destruct (write_channel _ _ _ _ _ _ st) as [[[]|ex] st1] eqn:Hstep.
    + apply write_channel_steps in Hstep as (evs1 & Hlog1 & Hex1 & Hcr1 & Hwr1).
      intros Hrest. apply IH in Hrest as (evs2 & k & Hlog2 & Hex2 & Hcr2 & Hwr2 & Hk).
      exists (evs1 ++ evs2), (S k). split; [by eapply logged_app |].
      split; [by apply Forall_app |].
      split; [by rewrite created_app, Hcr1, Hcr2 |].
      split; [by rewrite written_app, fmap_app, Hwr1, Hwr2 |].
      intros u Hu. by rewrite (Hk u Hu).
    + apply write_channel_steps in Hstep as (evs1 & Hlog1 & Hex1 & Hcr1 & Hwr1).
      intros [= <- <-]. destruct Hwr1 as [Hwr1|Hwr1].
      * exists evs1, 0%nat. rewrite Hwr1. by repeat split.
      * exists evs1, 1%nat. rewrite Hwr1. simpl. by destruct cs.
Qed.

(** *** [save] *)

Lemma save_steps self output_path st res st' o x y width height :
  objs st !! self = Some o -> crop_info o = Some (x, y, width, height) ->
  save self output_path st = (res, st') ->
  exists ext wr,
    logged st st' (ext ++ wr) /\
    Forall (fun e => is_output e = false) ext /\
    Forall (reads_region (ome_tiff_path o) x y width height) ext /\
    Forall (fun t => (get_dtype_from_metadata self st).1 = Ok t) (buffered_dtypes ext) /\
    Forall (fun e => is_extraction e = false) wr /\
    ((wr = [] /\ forall u, res <> Ok u) \/
     exists n k,
       get_number_of_channels self st = (Ok n, st) /\
       opened ext = pair (ome_tiff_path o) <$> range n /\
       length (buffered ext) = length (range n) /\
       created wr = [output_path] /\
       Some <$> written wr =
         page_for (ome_metadata o) (buffered ext) <$> take k (range n) /\
       (forall u, res = Ok u -> k = length (range n))).
Proof.
  intros Hself Hcrop. unfold save. run.
  pose proof (get_number_of_channels_pure self st) as Hn.
  destruct (get_number_of_channels self st) as [[n|ex] st1] eqn:Hnum;
    simpl in Hn; subst st1.
  2:{ intros [= <- <-]. exists [], []. split; [apply logged_nil |].
      split_and!; first [by constructor | by left]. }
  pose proof (get_dtype_from_metadata_pure self st) as Hd.
  destruct (get_dtype_from_metadata self st) as [[dt|ex] st1] eqn:Hdt;
    simpl in Hd; subst st1.
  2:{ intros [= <- <-]. exists [], []. split; [apply logged_nil |].
      split_and!; first [by constructor | by left]. }
  destruct (for_ (range n) _ [] st) as [[arrs|ex] st1] eqn:Hext.
  2:{ apply extract_loop in Hext as (ext & Hlog & Hout & Hreg & Hdts & _).
      intros [= <- <-]. exists ext, []. rewrite app_nil_r. split; [done |].
      split_and!; try done; [| by left].
      eapply Forall_impl; [exact Hdts |]. by intros t ->. }
  apply extract_loop in Hext as (ext & Hlog & Hout & Hreg & Hdts & -> & Hop & Hlen).
  simpl.
  assert (Hdts' : Forall (fun t => (Ok dt, st).1 = Ok t) (buffered_dtypes ext)).
  { eapply Forall_impl; [exact Hdts |]. by intros t ->. }
  destruct (TiffWriter_open output_path true (world st1)) as [[tif|ex] w1] eqn:Hopen; simpl.
  2:{ intros [= <- <-]. exists ext, [EvWriterOpen output_path true].
      split; [eapply logged_app; [exact Hlog | logged_done] |].
      split_and!; try done; [by repeat constructor |].
      right. exists n, 0%nat. by split_and!. }
  match goal with
  | |- context [for_ _ _ _ ?s] =>
      assert (Hlog1 : logged st1 s [EvWriterOpen output_path true]) by logged_done;
      destruct (for_ (range n) (write_channel tif (ome_metadata o) n (buffered ext)) () s)
        as [[[]|ex] st2] eqn:Hwr
  end.
  all: apply write_loop in Hwr as (wr & k & Hlog2 & Hex2 & Hcr2 & Hwr2 & Hk).
  all: destruct (TiffWriter_close tif (world st2)) as [[[]|ex'] w2] eqn:Hclose.
  all: intros [= <- <-].
  all: exists ext, ([EvWriterOpen output_path true] ++ wr ++ [EvWriterClose]).
  all: split;
    [eapply logged_app; [exact Hlog |];
     eapply logged_app; [exact Hlog1 |];
     eapply logged_app; [exact Hlog2 | logged_done] |].
  all: split_and!; try done;
    [apply Forall_app; split; [by repeat constructor |];
     apply Forall_app; split; [done | by repeat constructor] |].
  all: right; exists n, k; split_and!; try done.
  all: try (by rewrite !created_app, Hcr2).
  all: try (by rewrite !written_app, app_nil_r).
Qed.

Lemma range_length n : length (range n) = Z.to_nat n.
Proof. unfold range. by rewrite length_fmap, length_seq. Qed.

Lemma page_for_range metadata arrs n :
  length arrs = Z.to_nat n ->
  page_for metadata arrs <$> range n = Some <$> pages metadata arrs.
Proof.
  intros Hlen. unfold range, pages. rewrite <- Hlen. apply list_eq. intros i.
  rewrite !list_lookup_fmap, list_lookup_imap.
  destruct (arrs !! i) as [a|] eqn:Ha; simpl.
  - rewrite lookup_seq_lt by (by eapply lookup_lt_Some). simpl.
    unfold page_for. rewrite Nat2Z.id, Ha. simpl. do 2 f_equal.
    destruct i; repeat case_decide; done || lia.
  - rewrite lookup_seq_ge by (by apply lookup_ge_None). done.
Qed.

Lemma pages_data metadata arrs : wa_data <$> pages metadata arrs = arrs.
Proof.
  unfold pages. apply list_eq. intros i.
  rewrite list_lookup_fmap, list_lookup_imap. by destruct (arrs !! i).
Qed.

Lemma pages_length metadata arrs : length (pages metadata arrs) = length arrs.
Proof. by rewrite <- (pages_data metadata arrs) at 2; rewrite length_fmap. Qed.

(** [save_steps], with the pages spelled out. *)
Lemma save_pages self output_path st res st' o x y width height :
  objs st !! self = Some o -> crop_info o = Some (x, y, width, height) ->
  save self output_path st = (res, st') ->
  exists ext wr,
    logged st st' (ext ++ wr) /\
    Forall (fun e => is_output e = false) ext /\
    Forall (fun e => is_extraction e = false) wr /\
    ((wr = [] /\ forall u, res <> Ok u) \/
     exists n k,
       get_number_of_channels self st = (Ok n, st) /\
       opened ext = pair (ome_tiff_path o) <$> range n /\
       length (buffered ext) = Z.to_nat n /\
       created wr = [output_path] /\
       written wr = take k (pages (ome_metadata o) (buffered ext)) /\
       (forall u, res = Ok u -> k = Z.to_nat n)).
Proof.
  intros Hself Hcrop Hsave.
  destruct (save_steps _ _ _ _ _ _ _ _ _ _ Hself Hcrop Hsave)
    as (ext & wr & Hlog & Hout & _ & _ & Hex & Hcases).
  exists ext, wr. split_and!; try done.
  destruct Hcases as [?|(n & k & Hn & Hop & Hlen & Hcr & Hwr & Hk)]; [by left |].
  rewrite range_length in Hlen. right. exists n, k. split_and!; try done.
  - rewrite fmap_take, page_for_range, <- fmap_take in Hwr by done.
    by apply (inj (fmap Some)) in Hwr.
  - intros u Hu. by rewrite (Hk u Hu), range_length.
Qed.

Lemma written_no_output evs :
  Forall (fun e => is_output e = false) evs -> written evs = [].
Proof.
  induction 1 as [|e evs He _ IH]; [done |].
  by destruct e.
Qed.

Lemma created_no_output evs :
  Forall (fun e => is_output e = false) evs -> created evs = [].
Proof.
  induction 1 as [|e evs He _ IH]; [done |].
  by destruct e.
Qed.

Lemma crop_document_images width height d im ims :
  images d = im :: ims ->
  images (crop_document width height d) =
    mkImage (mkPixels width height (size_c (pixels im)) (type (pixels im))
               (pixels_rest (pixels im))) (image_rest im) :: ims.
Proof. intros Him. unfold crop_document, on_first_pixels. by rewrite Him. Qed.

Lemma pages_dtype metadata arrs :
  Forall (fun page => wa_dtype page = np_uint16) (pages metadata arrs).
Proof.
  apply Forall_lookup. intros i page. unfold pages. rewrite list_lookup_imap.
  destruct (arrs !! i); [| done]. by intros [= <-].
Qed.

(** [save] either stops at its first test or has a crop region to work on. *)
Lemma save_cases self output_path st res st' :
  save self output_path st = (res, st') ->
  (st' = st /\ forall u, res <> Ok u) \/
  exists o x y width height,
    objs st !! self = Some o /\ crop_info o = Some (x, y, width, height).
Proof.
  unfold save.
  destruct (objs st !! self) as [o|] eqn:Hself; run.
  2:{ intros [= <- <-]. by left. }
  destruct (crop_info o) as [[[[x y] width] height]|] eqn:Hcrop; run.
  - intros _. right. by exists o, x, y, width, height.
  - intros [= <- <-]. by left.
Qed.

Lemma events_since_refl st : events_since st st = [].
Proof. unfold events_since. apply drop_all. Qed.

Lemma crop_child self x y width height st child st' o :
  objs st !! self = Some o ->
  crop self x y width height st = (Ok child, st') ->
  exists c,
    objs st' !! child = Some c /\ ome_tiff_path c = ome_tiff_path o /\
    crop_info c = Some (x, y, width, height).
Proof.
  intros Hself Hcrop.
  destruct (crop_inv _ _ _ _ _ _ _ _ Hcrop)
    as (e & r & d & im & ims & xml & Hself' & Home & Hdoc & Him & Hxml & Hvw & Hvh).
  rewrite (crop_run _ _ _ _ _ _ _ _ _ _ _ _ Hself' Home Hdoc Him Hxml Hvw Hvh) in Hcrop.
  injection Hcrop as <- <-. rewrite Hself in Hself'. injection Hself' as <-.
  eexists. split; [apply lookup_snoc |]. done.
Qed.

Lemma reads_region_other path x y width height e :
  is_extraction e = false -> reads_region path x y width height e.
Proof. by destruct e. Qed.

(** *** Sequences of crops *)

Lemma crops_frame self regions st :
  exists os ds,
    crops self regions st = mkState (objs st ++ os) (docs st ++ ds) (world st) (log st).
Proof.
  revert st. induction regions as [|[[[x y] width] height] regions IH]; intros st; simpl.
  - exists [], []. destruct st; simpl. by rewrite !app_nil_r.
  - destruct (crop_frame self x y width height st) as (os1 & ds1 & ->).
    destruct (IH (mkState (objs st ++ os1) (docs st ++ ds1) (world st) (log st)))
      as (os2 & ds2 & ->). simpl.
    exists (os1 ++ os2), (ds1 ++ ds2). by rewrite !app_assoc.
Qed.

(** *** Chains of crops *)

Lemma crop_result self x y width height st child st' e r d :
  objs st !! self = Some e -> ome e = Some r -> docs st !! r = Some d ->
  crop self x y width height st = (Ok child, st') ->
  exists im ims xml,
    images d = im :: ims /\
    to_xml (crop_document width height d) = Ok xml /\
    validate_size width = Ok tt /\ validate_size height = Ok tt /\
    child = length (objs st) /\
    st' = mkState (objs st ++ [mkSlicer (ome_tiff_path e) None (Some xml)
                                 (Some (length (docs st)))
                                 (Some (x, y, width, height)) (Some (width, height))])
                  (docs st ++ [d; crop_document width height d]) (world st) (log st).
Proof.
  intros Hself Home Hdoc Hcrop.
  destruct (crop_inv _ _ _ _ _ _ _ _ Hcrop)
    as (e' & r' & d' & im & ims & xml & Hself' & Home' & Hdoc' & Him & Hxml & Hvw & Hvh).
  rewrite Hself in Hself'. injection Hself' as <-.
  rewrite Home in Home'. injection Home' as <-.
  rewrite Hdoc in Hdoc'. injection Hdoc' as <-.
  rewrite (crop_run _ _ _ _ _ _ _ _ _ _ _ _ Hself Home Hdoc Him Hxml Hvw Hvh) in Hcrop.
  injection Hcrop as <- <-. by exists im, ims, xml.
Qed.

(** What the three document accessors return depends on the descriptor
    object and its document alone. *)
Lemma accessors_same st st' self self' o o' r r' d :
  objs st !! self = Some o -> ome o = Some r -> docs st !! r = Some d ->
  objs st' !! self' = Some o' -> ome o' = Some r' -> docs st' !! r' = Some d ->
  (forall n, get_number_of_channels self st = (n, st) ->
     get_number_of_channels self' st' = (n, st')) /\
  (forall dt, get_dtype_from_metadata self st = (dt, st) ->
     get_dtype_from_metadata self' st' = (dt, st')).
Proof.
  intros Hself Home Hdoc Hself' Home' Hdoc'.
  unfold get_number_of_channels, get_dtype_from_metadata.
  destruct (images d) as [|im ims] eqn:Him; run;
    split; intros ? [= <-]; reflexivity.
Qed.

Lemma crop_chain_app regions1 regions2 self st :
  crop_chain self (regions1 ++ regions2) st =
    (mid ← crop_chain self regions1; crop_chain mid regions2) st.
Proof.
  revert self st. induction regions1 as [|[[[x y] width] height] regions1 IH];
    intros self st; simpl; [reflexivity |].
  unfold mbind, M_bind, bind.
  destruct (crop self x y width height st) as [[c|ex] st1]; [apply IH | reflexivity].
Qed.

Lemma crop_chain_holds regions :
  forall self o r d st child st',
    objs st !! self = Some o -> ome o = Some r -> docs st !! r = Some d ->
    crop_chain self regions st = (Ok child, st') ->
    exists c r',
      objs st' !! child = Some c /\ ome c = Some r' /\ docs st' !! r' = Some d /\
      ome_tiff_path c = ome_tiff_path o /\ world st' = world st /\ log st' = log st.
Proof.
  induction regions as [|[[[x y] width] height] regions IH];
    intros self o r d st child st' Hself Home Hdoc; simpl.
  - unfold mret, M_ret, ret. intros [= <- <-]. by exists o, r.
  - unfold mbind, M_bind, bind.
    destruct (crop self x y width height st) as [[c1|ex] st1] eqn:Hcrop; [| done].
    destruct (crop_result _ _ _ _ _ _ _ _ _ _ _ Hself Home Hdoc Hcrop)
      as (im & ims & xml & Him & Hxml & Hvw & Hvh & -> & ->).
    intros Hrest.
    set (c1 := mkSlicer _ _ _ _ _ _) in Hrest.
    set (st1 := mkState _ _ _ _) in Hrest.
    assert (Hc1 : objs st1 !! length (objs st) = Some c1) by apply lookup_snoc.
    assert (Hd1 : docs st1 !! length (docs st) = Some d) by by apply list_lookup_middle.
    destruct (IH _ c1 _ d _ _ _ Hc1 eq_refl Hd1 Hrest)
      as (c & r' & Hc & Hr' & Hd & Hpath & Hw & Hl).
    exists c, r'. split_and!; done.
Qed.

(** *** [save], event by event *)

Lemma buffered_no_extraction evs :
  Forall (fun e => is_extraction e = false) evs -> buffered evs = [].
Proof.
  induction 1 as [|e evs He _ IH]; [done |].
  by destruct e.
Qed.

Lemma no_extraction_calls evs :
  Forall (fun e => is_extraction e = false) evs ->
  opened evs = [] /\ crops_made evs = [] /\ buffered_dtypes evs = [].
Proof.
  induction 1 as [|e evs He _ (IH1 & IH2 & IH3)]; [done |].
  by destruct e.
Qed.

Lemma page_event_no_extraction evs :
  Forall (fun e => is_page_event e = true) evs ->
  Forall (fun e => is_extraction e = false) evs.
Proof. intros H. eapply Forall_impl; [exact H |]. by intros []. Qed.

(** An array built in a run whose [np.ndarray] calls all ask for [uint16]
    was built with [uint16]. *)
Lemma built_lookup evs i a :
  Forall (fun t => t = np_uint16) (buffered_dtypes evs) ->
  buffered evs !! i = Some a ->
  built evs !! i = Some (a, np_uint16).
Proof.
  revert i. induction evs as [|e evs IH]; intros i Hdts; [done |].
  destruct e; try (by apply IH).
  unfold built, buffered, buffered_dtypes in *; simpl in *.
  apply Forall_cons in Hdts as [-> Hdts].
  destruct (np_ndarray buf np_uint16 shape) as [a'|ex]; [| by apply IH].
  destruct i as [|i]; simpl; [by intros [= ->] | by apply IH].
Qed.

Lemma crops_made_app evs1 evs2 :
  crops_made (evs1 ++ evs2) = crops_made evs1 ++ crops_made evs2.
Proof. apply omap_app. Qed.

Lemma printed_app evs1 evs2 : printed (evs1 ++ evs2) = printed evs1 ++ printed evs2.
Proof. apply omap_app. Qed.

Lemma output_calls_app evs1 evs2 :
  output_calls (evs1 ++ evs2) = output_calls evs1 ++ output_calls evs2.
Proof. apply filter_app. Qed.

Lemma output_calls_no_output evs :
  Forall (fun e => is_output e = false) evs -> output_calls evs = [].
Proof.
  induction 1 as [|e evs He _ IH]; [done |].
  unfold output_calls in *. rewrite filter_cons_False; [done | congruence].
Qed.

Lemma output_calls_pages evs :
  Forall (fun e => is_page_event e = true) evs ->
  output_calls evs = EvWrite <$> written evs.
Proof.
  induction 1 as [|e evs He _ IH]; [done |].
  unfold output_calls in *. destruct e; try done.
  rewrite filter_cons_True by reflexivity. simpl. by rewrite IH.
Qed.

Lemma output_calls_cons_output e evs :
  is_output e = true -> output_calls (e :: evs) = e :: output_calls evs.
Proof. intros He. unfold output_calls. by rewrite filter_cons_True. Qed.

Lemma pages_no_extraction evs :
  Forall (fun e => is_page_event e = true) evs ->
  opened evs = [] /\ buffered evs = [] /\ created evs = [].
Proof.
  induction 1 as [|e evs He _ (IH1 & IH2 & IH3)]; [done |].
  by destruct e.
Qed.

Lemma extract_channel_exact path x y width height n dt c acc st res st' :
  extract_channel path x y width height n dt c acc st = (res, st') ->
  exists evs,
    logged st st' evs /\
    printed evs = [processing_line n c] /\
    opened evs = [(path, c)] /\
    Forall (fun e => is_output e = false) evs /\
    ((crops_made evs = [] /\ buffered evs = []) \/
     exists img, crops_made evs = [(img, (x, y, width, height))] /\ page_of path c img) /\
    match res with
    | Ok arrs => exists a, arrs = acc ++ [a] /\ buffered evs = [a]
    | Raise _ => buffered evs = []
    end.
Proof.
  destruct st as [os ds w lg]. unfold extract_channel; run.
  destruct (Image_new_from_file path c "sequential" w) as [[img|ex] w1] eqn:Hopen; run.
  2:{ intros [= <- <-]. eexists. split; [logged_done |].
      split; [done |]. split; [done |]. split; [by repeat constructor |].
      split; [by left | done]. }
  assert (Hpage : page_of path c img) by by exists w, w1.
  destruct (Image_crop img x y width height) as [cimg|ex] eqn:Hcrop; run.
  2:{ intros [= <- <-]. eexists. split; [logged_done |].
      split; [done |]. split; [done |]. split; [by repeat constructor |].
      split; [right; by exists img | done]. }
  destruct (Image_write_to_memory cimg w1) as [[buf|ex] w2] eqn:Hmem; run.
  2:{ intros [= <- <-]. eexists. split; [logged_done |].
      split; [done |]. split; [done |]. split; [by repeat constructor |].
      split; [right; by exists img | done]. }
  destruct (np_ndarray buf dt _) as [a|ex] eqn:Hnd; run.
  all: intros [= <- <-]; eexists; (split; [logged_done |]).
  all: split; [done |]; split; [done |]; split; [by repeat constructor |].
  all: split; [right; by exists img |].
  - exists a. unfold buffered; simpl. by rewrite Hnd.
  - unfold buffered; simpl. by rewrite Hnd.
Qed.

Lemma extract_loop_exact path x y width height n dt cs acc st res st' :
  for_ cs (extract_channel path x y width height n dt) acc st = (res, st') ->
  exists evs k,
    logged st st' evs /\
    (k <= length cs)%nat /\
    printed evs = processing_line n <$> take k cs /\
    opened evs = pair path <$> take k cs /\
    Forall (fun e => is_output e = false) evs /\
    (exists decoded,
       crops_made evs = (fun img => (img, (x, y, width, height))) <$> decoded /\
       Forall2 (page_of path) (take (length decoded) cs) decoded /\
       (length (buffered evs) <= length decoded <= k)%nat) /\
    match res with
    | Ok arrs => k = length cs /\ arrs = acc ++ buffered evs /\ length (buffered evs) = k
    | Raise _ => S (length (buffered evs)) = k
    end.
Proof.
  revert acc st. induction cs as [|c cs IH]; intros acc st; simpl.
  - intros [= <- <-]. exists [], 0%nat. split; [apply logged_nil |].
    split_and!; try done; [| by rewrite app_nil_r].
    exists []. split_and!; [done | simpl; constructor | done | done].
  - unfold mbind, M_bind, bind.
    destruct (extract_channel _ _ _ _ _ _ _ _ _ st) as [[acc1|ex] st1] eqn:Hstep.
    + apply extract_channel_exact in Hstep
        as (evs1 & Hlog1 & Hpr1 & Hop1 & Hout1 & Hcr1 & a & -> & Hbuf1).
      destruct Hcr1 as [[_ Hno]|(img & Hcr1 & Hpage)];
        [rewrite Hbuf1 in Hno; discriminate Hno |].
      intros Hrest.
      apply IH in Hrest
        as (evs2 & k & Hlog2 & Hle & Hpr2 & Hop2 & Hout2 & Hcr2 & Hres).
      destruct Hcr2 as (decoded & Hcr2 & Hpages & Hlen2).
      exists (evs1 ++ evs2), (S k). split; [by eapply logged_app |].
      split; [lia |].
      split; [by rewrite printed_app, Hpr1, Hpr2 |].
      split; [by rewrite opened_app, Hop1, Hop2 |].
      split; [by apply Forall_app |].
      rewrite buffered_app, Hbuf1. simpl. split.
      { exists (img :: decoded). rewrite crops_made_app, Hcr1, Hcr2. simpl.
        split; [done |]. split; [by constructor | lia]. }
      destruct res as [arrs|ex].
      * destruct Hres as (-> & -> & Hlen). split_and!; try done.
        -- by rewrite <- app_assoc.
        -- by rewrite Hlen.
      * by rewrite Hres.
    + apply extract_channel_exact in Hstep
        as (evs1 & Hlog1 & Hpr1 & Hop1 & Hout1 & Hcr1 & Hbuf1).
      intros [= <- <-]. exists evs1, 1%nat. split; [done |]. split; [lia |].
      rewrite Hbuf1. simpl.
      split; [by destruct cs |]. split; [by destruct cs |]. split; [done |].
      split; [| done].
      destruct Hcr1 as [[Hcr1 _]|(img & Hcr1 & Hpage)].
      * exists []. rewrite Hcr1. split_and!; [done | simpl; constructor | simpl; lia | simpl; lia].
      * exists [img]. rewrite Hcr1. simpl. split_and!; [done | | lia | lia].
        by repeat constructor.
Qed.

Lemma write_channel_exact tif metadata n arrs c st res st' :
  write_channel tif metadata n arrs c tt st = (res, st') ->
  exists evs,
    logged st st' evs /\
    printed evs = [writing_line n c] /\
    Forall (fun e => is_page_event e = true) evs /\
    (length (written evs) <= 1)%nat.
Proof.
  destruct st as [os ds w lg]. unfold write_channel; run.
  destruct (arrs !! Z.to_nat c) as [a|] eqn:Ha; run.
  2:{ intros [= <- <-]. eexists. split; [logged_done |].
      split_and!; [done | by repeat constructor | simpl; lia]. }
  destruct (TiffWriter_write _ _ _) as [[[]|ex] w1] eqn:Hwrite; run.
  all: intros [= <- <-]; eexists; (split; [logged_done |]).
  all: split_and!; [done | by repeat constructor | simpl; lia].
Qed.

Lemma write_loop_exact tif metadata n arrs cs st res st' :
  for_ cs (write_channel tif metadata n arrs) tt st = (res, st') ->
  exists evs k,
    logged st st' evs /\
    (k <= length cs)%nat /\
    printed evs = writing_line n <$> take k cs /\
    Forall (fun e => is_page_event e = true) evs /\
    (length (written evs) <= k)%nat /\
    (forall u, res = Ok u -> k = length cs).
Proof.
  revert st. induction cs as [|c cs IH]; intros st; simpl.
  - intros [= <- <-]. exists [], 0%nat. split; [apply logged_nil |]. by split_and!.
  - unfold mbind, M_bind, bind.
    destruct (write_channel _ _ _ _ _ _ st) as [[[]|ex] st1] eqn:Hstep.
    + apply write_channel_exact in Hstep as (evs1 & Hlog1 & Hpr1 & Hpg1 & Hw1).
      intros Hrest.
      apply IH in Hrest as (evs2 & k & Hlog2 & Hle & Hpr2 & Hpg2 & Hw2 & Hk).
      exists (evs1 ++ evs2), (S k). split; [by eapply logged_app |].
      split; [lia |].
      split; [by rewrite printed_app, Hpr1, Hpr2 |].
      split; [by apply Forall_app |].
      split; [rewrite written_app, length_app; lia |].
      intros u Hu. by rewrite (Hk u Hu).
    + apply write_channel_exact in Hstep as (evs1 & Hlog1 & Hpr1 & Hpg1 & Hw1).
      intros [= <- <-]. exists evs1, 1%nat. split; [done |]. split; [lia |].
      split; [by destruct cs |]. by split_and!.
Qed.

(** The runs of [save] on a descriptor with a crop region and a document
    with an image: stopped in the first loop, at the opening of the output,
    or after it. *)
Lemma save_exact self output_path st res st' o x y width height r d im ims :
  objs st !! self = Some o -> crop_info o = Some (x, y, width, height) ->
  ome o = Some r -> docs st !! r = Some d -> images d = im :: ims ->
  save self output_path st = (res, st') ->
  exists ext k wr,
    logged st st' (ext ++ wr) /\
    (k <= Z.to_nat (size_c (pixels im)))%nat /\
    printed ext = processing_line (size_c (pixels im)) <$> take k (range (size_c (pixels im))) /\
    opened ext = pair (ome_tiff_path o) <$> take k (range (size_c (pixels im))) /\
    Forall (fun e => is_output e = false) ext /\
    ((wr = [] /\ S (length (buffered ext)) = k /\ exists ex, res = Raise ex) \/
     (length (buffered ext) = k /\ k = Z.to_nat (size_c (pixels im)) /\
      ((wr = [EvWriterOpen output_path true] /\ exists ex, res = Raise ex) \/
       exists wl j,
         wr = [EvWriterOpen output_path true] ++ wl ++ [EvWriterClose] /\
         Forall (fun e => is_page_event e = true) wl /\
         (j <= Z.to_nat (size_c (pixels im)))%nat /\
         (length (written wl) <= j)%nat /\
         printed wl = writing_line (size_c (pixels im))
                        <$> take j (range (size_c (pixels im))) /\
         (forall u, res = Ok u -> j = Z.to_nat (size_c (pixels im)))))) /\
    Forall (fun e => is_extraction e = false) wr /\
    exists decoded,
      crops_made ext = (fun img => (img, (x, y, width, height))) <$> decoded /\
      Forall2 (page_of (ome_tiff_path o))
              (take (length decoded) (range (size_c (pixels im)))) decoded /\
      (length (buffered ext) <= length decoded <= k)%nat.
Proof.
  intros Hself Hcrop Home Hdoc Him. unfold save. run.
  rewrite (get_number_of_channels_run _ _ _ _ _ _ _ Hself Home Hdoc Him).
  rewrite (get_dtype_from_metadata_run _ _ _ _ _ _ _ Hself Home Hdoc Him).
  set (n := size_c (pixels im)).
  destruct (for_ (range n) _ [] st) as [[arrs|ex] st1] eqn:Hext.
  2:{ apply extract_loop_exact in Hext
        as (ext & k & Hlog & Hle & Hpr & Hop & Hout & Hcr & Hbuf).
      rewrite range_length in Hle.
      intros [= <- <-]. exists ext, k, []. rewrite app_nil_r.
      split; [done |]. split; [done |]. split; [done |]. split; [done |].
      split; [done |].
      split; [left; split_and!; try done; by exists ex |].
      split; [constructor | exact Hcr]. }
  apply extract_loop_exact in Hext
    as (ext & k & Hlog & Hle & Hpr & Hop & Hout & Hcr & -> & -> & Hlen).
  rewrite range_length in *. simpl.
  destruct (TiffWriter_open output_path true (world st1)) as [[tif|ex] w1] eqn:Hopen; simpl.
  2:{ intros [= <- <-]. exists ext, (Z.to_nat n), [EvWriterOpen output_path true].
      split; [eapply logged_app; [exact Hlog | logged_done] |].
      split; [done |]. split; [done |]. split; [done |]. split; [done |].
      split; [right; split_and!; try done; left; split; [done | by exists ex] |].
      split; [by repeat constructor | exact Hcr]. }
  match goal with
  | |- context [for_ _ _ _ ?s] =>
      assert (Hlog1 : logged st1 s [EvWriterOpen output_path true]) by logged_done;
      destruct (for_ (range n) (write_channel tif (ome_metadata o) n (buffered ext)) () s)
        as [[[]|ex] st2] eqn:Hwr
  end.
  all: apply write_loop_exact in Hwr as (wl & j & Hlog2 & Hlej & Hpr2 & Hpg2 & Hwl & Hj).
  all: rewrite range_length in Hlej.
  all: destruct (TiffWriter_close tif (world st2)) as [[[]|ex'] w2] eqn:Hclose.
  all: intros [= <- <-].
  all: exists ext, (Z.to_nat n), ([EvWriterOpen output_path true] ++ wl ++ [EvWriterClose]).
  all: split;
    [eapply logged_app; [exact Hlog |];
     eapply logged_app; [exact Hlog1 |];
     eapply logged_app; [exact Hlog2 | logged_done] |].
  all: split; [done |]; split; [done |]; split; [done |]; split; [done |].
  all: split;
    [right; split_and!; try done; right; exists wl, j; split_and!; try done;
     intros u Hu; first [discriminate Hu | rewrite (Hj u Hu); apply range_length] |].
  all: split; [| exact Hcr].
  all: apply Forall_app; split; [by repeat constructor |].
  all: apply Forall_app; split; [by apply page_event_no_extraction | by repeat constructor].
Qed.

(** ** The claims *)

(** C1.  Saving a cropped descriptor, when every library call succeeds (as
    for a region inside the source bounds), opens the output file once and
    writes one page per channel the source document declares.  The first
    page's description is the XML of a document whose [size_x] and [size_y]
    are the crop's width and height; every later page has no description,
    and no page is given a [metadata] argument. *)
Theorem save_embeds_cropped_metadata
    parent x y width height st child st1 output_path u st2 :
  crop parent x y width height st = (Ok child, st1) ->
  save child output_path st1 = (Ok u, st2) ->
  exists e r src xml n im ims,
    objs st !! parent = Some e /\ ome e = Some r /\ docs st !! r = Some src /\
    get_number_of_channels parent st = (Ok n, st) /\
    to_xml (crop_document width height src) = Ok xml /\
    images (crop_document width height src) = im :: ims /\
    size_x (pixels im) = width /\ size_y (pixels im) = height /\
    created (events_since st1 st2) = [output_path] /\
    length (written (events_since st1 st2)) = Z.to_nat n /\
    forall i page,
      written (events_since st1 st2) !! i = Some page ->
      wa_description page = (if decide (i = 0%nat) then Some xml else None) /\
      wa_metadata page = None.
Proof.
  intros Hcrop Hsave.
  destruct (crop_inv _ _ _ _ _ _ _ _ Hcrop)
    as (e & r & src & im & ims & xml & Hself & Home & Hdoc & Him & Hxml & Hvw & Hvh).
  rewrite (crop_run _ _ _ _ _ _ _ _ _ _ _ _ Hself Home Hdoc Him Hxml Hvw Hvh) in Hcrop.
  injection Hcrop as <- <-.
  set (c := mkSlicer _ _ _ _ _ _) in Hsave.
  set (st1 := mkState _ _ _ _) in Hsave |- *.
  assert (Hchild : objs st1 !! length (objs st) = Some c) by apply lookup_snoc.
  assert (Hcdoc : docs st1 !! length (docs st) = Some src) by by apply list_lookup_middle.
  destruct (save_pages _ _ _ _ _ c x y width height Hchild eq_refl Hsave)
    as (ext & wr & Hlog & Hout & _ & [[_ Hne]|(n & k & Hn & _ & Hlen & Hcr & Hwr & Hk)]);
    [by destruct (Hne u) |].
  rewrite (get_number_of_channels_run _ _ c _ _ _ _ Hchild eq_refl Hcdoc Him) in Hn.
  injection Hn as <-.
  rewrite (Hk u eq_refl) in Hwr.
  rewrite take_ge in Hwr by (rewrite pages_length; lia).
  rewrite (logged_events_since _ _ _ Hlog), created_app, written_app,
    (created_no_output _ Hout), (written_no_output _ Hout), Hcr, Hwr. simpl.
  eexists e, r, src, xml, _, _, ims. split_and!; try done.
  - by eapply get_number_of_channels_run.
  - by apply crop_document_images.
  - done.
  - done.
  - by rewrite pages_length.
  - intros i page. unfold pages. rewrite list_lookup_imap.
    destruct (buffered ext !! i); [| done]. by intros [= <-].
Qed.

(** C2.  Crop calls on a descriptor, however many and whatever they
    return, leave the descriptor object and the document it holds as they
    were, and with them the dimensions and the metadata XML it reports. *)
Theorem crops_leave_parent_unchanged self regions st o r d :
  objs st !! self = Some o -> ome o = Some r -> docs st !! r = Some d ->
  objs (crops self regions st) !! self = Some o /\
  docs (crops self regions st) !! r = Some d /\
  (forall dims, get_image_dimensions self st = (dims, st) ->
     get_image_dimensions self (crops self regions st) = (dims, crops self regions st)) /\
  (forall xml, get_ome_metadata self st = (xml, st) ->
     get_ome_metadata self (crops self regions st) = (xml, crops self regions st)).
Proof.
  intros Hself Home Hdoc.
  destruct (crops_frame self regions st) as (os & ds & ->).
  assert (Hself' : (objs st ++ os) !! self = Some o) by by apply lookup_app_l_Some.
  assert (Hdoc' : (docs st ++ ds) !! r = Some d) by by apply lookup_app_l_Some.
  split; [exact Hself' |]. split; [exact Hdoc' |]. split.
  - intros dims. unfold get_image_dimensions.
    destruct (cropped_dimensions o) as [[width height]|] eqn:Hdims;
      destruct (images d) as [|im ims] eqn:Him; run; intros [= <-]; reflexivity.
  - intros xml. unfold get_ome_metadata. run. intros [= <-]. reflexivity.
Qed.

(** C3.  A descriptor built from a file path has no crop region, and keeps
    having none whatever crops are derived from it; [save] on it raises the
    [ValueError] at once: the state it leaves is the state it found, so no
    library was called and no file was opened or created. *)
Theorem save_without_crop_raises path st self st' regions output_path :
  OMESlicer_from_path path st = (Ok self, st') ->
  save self output_path (crops self regions st') =
    (Raise (ValueError "This slicer instance has no crop info; nothing to save."),
     crops self regions st').
Proof.
  intros Hinit.
  destruct (from_path_inv _ _ _ _ Hinit)
    as (tif & w1 & xml & w2 & w3 & d & _ & _ & _ & _ & -> & ->).
  destruct (crops_frame (length (objs st)) regions
              (mkState (objs st ++ [mkSlicer path None xml (Some (length (docs st))) None None])
                       (docs st ++ [d]) w3
                       (log st ++ [EvTiffFileOpen path; EvTiffFileMetadata; EvTiffFileClose])))
    as (os & ds & ->). simpl.
  unfold save. run. rewrite <- app_assoc. simpl.
  rewrite (list_lookup_middle (objs st) os _ (length (objs st)) eq_refl). reflexivity.
Qed.

(** C4, as the code has it.  The descriptor [crop] returns holds a new
    document equal to the source's, width and height included.  The crop's
    width and height are written into a second copy: the descriptor's
    metadata string is the XML of that copy, which differs from the source's
    document in [size_x] and [size_y] only.  The descriptor reports the
    crop's width and height with the source's channel count, and answers
    the channel count and the element type as the source descriptor does:
    the document they are read from, pixel type included, is the same. *)
Theorem crop_holds_source_copy parent x y width height st child st' :
  crop parent x y width height st = (Ok child, st') ->
  exists e r0 src im ims c r xml,
    objs st !! parent = Some e /\ ome e = Some r0 /\ docs st !! r0 = Some src /\
    images src = im :: ims /\
    objs st' !! child = Some c /\ ome c = Some r /\
    r <> r0 /\ docs st !! r = None /\ docs st' !! r = Some src /\
    docs st' !! r0 = Some src /\
    crop_info c = Some (x, y, width, height) /\
    ome_metadata c = Some xml /\
    to_xml (crop_document width height src) = Ok xml /\
    crop_document width height src =
      mkOME (mkImage (mkPixels width height (size_c (pixels im)) (type (pixels im))
                        (pixels_rest (pixels im))) (image_rest im) :: ims)
            (ome_rest src) /\
    get_image_dimensions child st' = (Ok (width, height, size_c (pixels im)), st') /\
    (forall n, get_number_of_channels parent st = (n, st) ->
       get_number_of_channels child st' = (n, st')) /\
    (forall dt, get_dtype_from_metadata parent st = (dt, st) ->
       get_dtype_from_metadata child st' = (dt, st')).
Proof.
  intros Hcrop.
  destruct (crop_inv _ _ _ _ _ _ _ _ Hcrop)
    as (e & r0 & src & im & ims & xml & Hself & Home & Hdoc & Him & Hxml & Hvw & Hvh).
  rewrite (crop_run _ _ _ _ _ _ _ _ _ _ _ _ Hself Home Hdoc Him Hxml Hvw Hvh) in Hcrop.
  injection Hcrop as <- <-.
  set (c := mkSlicer _ _ _ _ _ _).
  set (st1 := mkState _ _ _ _).
  assert (Hchild : objs st1 !! length (objs st) = Some c) by apply lookup_snoc.
  assert (Hcdoc : docs st1 !! length (docs st) = Some src) by by apply list_lookup_middle.
  assert (Hlt : (r0 < length (docs st))%nat) by by eapply lookup_lt_Some.
  exists e, r0, src, im, ims, c, (length (docs st)), xml.
  split; [exact Hself |]. split; [exact Home |]. split; [exact Hdoc |].
  split; [exact Him |]. split; [exact Hchild |]. split; [reflexivity |].
  split; [lia |]. split; [by apply lookup_ge_None |]. split; [exact Hcdoc |].
  split; [by apply lookup_app_l_Some |]. split; [reflexivity |].
  split; [reflexivity |]. split; [exact Hxml |].
  split; [unfold crop_document, on_first_pixels; by rewrite Him |].
  split;
    [by apply (get_image_dimensions_cropped _ _ c width height (length (docs st)) src im ims) |].
  exact (accessors_same _ _ _ _ _ _ _ _ _ Hself Home Hdoc Hchild eq_refl Hcdoc).
Qed.

(** C6, at the input where the code departs from it.  Whatever pixel type
    the document declares, the accessor answers [uint16] and leaves the
    state as it is: what it looks up is the member of [PixelType], which is
    no key of the table, not the member's value, which may be one.  So when
    the table has an element type other than [uint16] for the declared pixel
    type ([np_uint8] for [uint8], say), the accessor does not return it. *)
Theorem get_dtype_from_metadata_misses_table self st o r d im ims :
  objs st !! self = Some o -> ome o = Some r -> docs st !! r = Some d ->
  images d = im :: ims ->
  get_dtype_from_metadata self st = (Ok np_uint16, st) /\
  (forall t,
     dtype_map !! PixelType_value (type (pixels im)) = Some t -> t <> np_uint16 ->
     get_dtype_from_metadata self st <> (Ok t, st)).
Proof.
  intros Hself Home Hdoc Him.
  rewrite (get_dtype_from_metadata_run _ _ _ _ _ _ _ Hself Home Hdoc Him).
  split; [reflexivity |]. intros t _ Hne [= <-]. by apply Hne.
Qed.

(** C7.  A descriptor built from a file path reports the [size_x], [size_y]
    and [size_c] of the first image of the document parsed from the
    metadata [tifffile] reads in that file ([IndexError] if the document has
    no image). *)
Theorem loaded_dimensions_are_declared path st self st' :
  OMESlicer_from_path path st = (Ok self, st') ->
  exists tif w1 xml w2 d,
    TiffFile_open path (world st) = (Ok tif, w1) /\
    TiffFile_ome_metadata tif w1 = (Ok xml, w2) /\
    from_xml xml = Ok d /\
    get_image_dimensions self st' =
      (match images d with
       | im :: _ => Ok (size_x (pixels im), size_y (pixels im), size_c (pixels im))
       | [] => Raise (IndexError "list index out of range")
       end, st').
Proof.
  intros Hinit.
  destruct (from_path_inv _ _ _ _ Hinit)
    as (tif & w1 & xml & w2 & w3 & d & Hopen & Hmeta & _ & Hxml & -> & ->).
  exists tif, w1, xml, w2, d. split_and!; try done.
  unfold get_image_dimensions. run.
  destruct (images d) as [|im ims] eqn:Him; run; reflexivity.
Qed.

(** C10.  Once [load_pyvips_image] has returned an image, every later call
    returns that image, whatever page it asks for, and calls no library:
    the state is left as it is, so this holds for each call after that too.
    When no image was cached before the first call, the image is page [p]
    of the descriptor's file. *)
Theorem load_pyvips_image_ignores_page self p st img st1 :
  load_pyvips_image self p st = (Ok img, st1) ->
  (forall q, load_pyvips_image self q st1 = (Ok img, st1)) /\
  (forall o, objs st !! self = Some o -> pyvips_image o = None ->
     exists i w',
       Image_new_from_file (ome_tiff_path o) p "sequential" (world st) = (Ok i, w') /\
                  img = Some i).
Proof.
  unfold load_pyvips_image.
  destruct (objs st !! self) as [o|] eqn:Hself; run; [| done].
  assert (Hlt : (self < length (objs st))%nat) by by eapply lookup_lt_Some.
  destruct (pyvips_image o) as [i|] eqn:Himg; run.
  - intros [= <- <-]. split; [| by intros ? [= <-]; rewrite Himg].
    intros q. by run.
  - destruct (Image_new_from_file _ _ _ _) as [[i|ex] w1] eqn:Hopen; run; [| done].
    rewrite !list_lookup_insert_eq by done. simpl.
    intros [= <- <-]. split.
    + intros q. run. rewrite !list_lookup_insert_eq by done. by simpl.
    + intros o' [= <-] _. by exists i, w1.
Qed.

(** C5.  In every run of [save], whatever pixel type the source declares:
    every [np.ndarray] call asks for the 16-bit unsigned element type; every
    page written is asked for with that element type, and the page at
    position [i] carries the array built at position [i], which was built
    with that element type.  When [save] returns, the pages written are as
    many as the channels the document declares. *)
Theorem save_writes_uint16 self output_path st res st' :
  save self output_path st = (res, st') ->
  Forall (fun t => t = np_uint16) (buffered_dtypes (events_since st st')) /\
  (forall i page,
     written (events_since st st') !! i = Some page ->
     wa_dtype page = np_uint16 /\
     built (events_since st st') !! i = Some (wa_data page, np_uint16)) /\
  (forall u, res = Ok u ->
     exists n,
       get_number_of_channels self st = (Ok n, st) /\
       length (written (events_since st st')) = Z.to_nat n).
Proof.
  intros Hsave.
  destruct (save_cases _ _ _ _ _ Hsave)
    as [[-> Hne]|(o & x & y & width & height & Hself & Hcrop)].
  { rewrite events_since_refl. split; [constructor |]. split; [done |].
    intros u Hu. by destruct (Hne u). }
  destruct (save_steps _ _ _ _ _ _ _ _ _ _ Hself Hcrop Hsave)
    as (ext & wr & Hlog & Hout & _ & Hdts & Hex & Hcases).
  destruct (no_extraction_calls _ Hex) as (_ & _ & Hdts').
  rewrite (logged_events_since _ _ _ Hlog).
  assert (Hall : Forall (fun t => t = np_uint16) (buffered_dtypes (ext ++ wr))).
  { rewrite buffered_dtypes_app, Hdts', app_nil_r.
    eapply Forall_impl; [exact Hdts |]. intros t. apply get_dtype_from_metadata_uint16. }
  split; [exact Hall |].
  rewrite written_app, (written_no_output _ Hout). simpl.
  destruct Hcases as [[-> Hne]|(n & k & Hn & _ & Hlen & _ & Hwr & Hk)].
  { split; [done |]. intros u Hu. by destruct (Hne u). }
  rewrite range_length in Hlen.
  rewrite fmap_take, page_for_range, <- fmap_take in Hwr by done.
  apply (inj (fmap Some)) in Hwr. rewrite Hwr. split.
  - intros i page Hpage. apply lookup_take_Some in Hpage as [Hpage _]. revert Hpage.
    unfold pages. rewrite list_lookup_imap.
    destruct (buffered ext !! i) as [a|] eqn:Ha; [| done]. intros [= <-].
    split; [reflexivity |]. simpl. apply built_lookup; [exact Hall |].
    rewrite buffered_app. by apply lookup_app_l_Some.
  - intros u Hu. exists n. split; [exact Hn |].
    rewrite (Hk u Hu), range_length, take_ge by (rewrite pages_length; lia).
    by rewrite pages_length.
Qed.

(** C8.  The events of one [save] split in two: first those of the
    extraction loop, with no call on the output file among them, then those
    on the output file, with no decoding, cropping or buffering among them.
    Either the second part is empty and [save] raised, or the first part has
    opened the pages [0 .. n-1] in this order, [n] the channel count, and
    has buffered [n] arrays before the output file was opened; the pages
    written carry, in order, the first arrays buffered, and all of them
    when [save] returns. *)
Theorem save_extracts_then_writes self output_path st res st' :
  save self output_path st = (res, st') ->
  exists ext wr,
    events_since st st' = ext ++ wr /\
    Forall (fun e => is_output e = false) ext /\
    Forall (fun e => is_extraction e = false) wr /\
    ((wr = [] /\ forall u, res <> Ok u) \/
     exists n k,
       get_number_of_channels self st = (Ok n, st) /\
       (opened ext).*2 = range n /\
       length (buffered ext) = Z.to_nat n /\
       created wr = [output_path] /\
       wa_data <$> written wr = take k (buffered ext) /\
       (forall u, res = Ok u -> wa_data <$> written wr = buffered ext)).
Proof.
  intros Hsave.
  destruct (save_cases _ _ _ _ _ Hsave)
    as [[-> Hne]|(o & x & y & width & height & Hself & Hcrop)].
  { exists [], []. rewrite events_since_refl. split_and!; try done. by left. }
  destruct (save_pages _ _ _ _ _ _ _ _ _ _ Hself Hcrop Hsave)
    as (ext & wr & Hlog & Hout & Hex & Hcases).
  exists ext, wr. rewrite (logged_events_since _ _ _ Hlog). split_and!; try done.
  destruct Hcases as [[-> Hne]|(n & k & Hn & Hop & Hlen & Hcr & Hwr & Hk)]; [by left |].
  right. exists n, k. split; [exact Hn |]. split_and!; try done.
  - rewrite Hop, <- list_fmap_compose. apply list_fmap_id.
  - by rewrite Hwr, fmap_take, pages_data.
  - intros u Hu. rewrite Hwr, fmap_take, pages_data, (Hk u Hu).
    apply take_ge. lia.
Qed.

(** The file path along a chain of crops. *)
Lemma crop_chain_path regions :
  forall self o st child st',
    objs st !! self = Some o ->
    crop_chain self regions st = (Ok child, st') ->
    exists c, objs st' !! child = Some c /\ ome_tiff_path c = ome_tiff_path o.
Proof.
  induction regions as [|[[[x y] width] height] regions IH];
    intros self o st child st' Hself; simpl.
  - unfold mret, M_ret, ret. intros [= <- <-]. by exists o.
  - unfold mbind, M_bind, bind.
    destruct (crop self x y width height st) as [[c1|ex] st1] eqn:Hcrop; [| done].
    destruct (crop_child _ _ _ _ _ _ _ _ _ Hself Hcrop) as (c & Hc & Hpath & _).
    intros Hrest. rewrite <- Hpath. by eapply IH.
Qed.

(** C9.  The descriptor at the end of a chain of crops has the file path of
    the descriptor the chain started from and the region of the last crop
    alone.  When it is saved, the pages decoded are the first [k] pages of
    that file, in order, and each crop made is of the region of the last
    crop, taken of the image decoded from the page of that file at the same
    position; the regions of the crops before play no part.  If the document
    declares a channel, at least page 0 is decoded; a page is cropped unless
    its decoding failed, which ends the run; when [save] returns, every
    page was decoded and cropped. *)
Theorem crop_chain_reads_original
    regions self o x y width height st child st' output_path res st'' :
  objs st !! self = Some o ->
  crop_chain self (regions ++ [(x, y, width, height)]) st = (Ok child, st') ->
  save child output_path st' = (res, st'') ->
  exists c n k decoded,
    objs st' !! child = Some c /\
    ome_tiff_path c = ome_tiff_path o /\
    crop_info c = Some (x, y, width, height) /\
    get_number_of_channels child st' = (Ok n, st') /\
    opened (events_since st' st'') = pair (ome_tiff_path o) <$> take k (range n) /\
    crops_made (events_since st' st'') =
      (fun img => (img, (x, y, width, height))) <$> decoded /\
    Forall2 (page_of (ome_tiff_path o)) (take (length decoded) (range n)) decoded /\
    (length decoded <= k <= S (length decoded))%nat /\
    (0 < n -> (0 < k)%nat) /\
    (forall u, res = Ok u -> k = Z.to_nat n /\ length decoded = Z.to_nat n) /\
    Forall (reads_region (ome_tiff_path o) x y width height) (events_since st' st'').
Proof.
  intros Hself. rewrite crop_chain_app. unfold mbind, M_bind, bind.
  destruct (crop_chain self regions st) as [[mid|ex] st0] eqn:Hchain; [| done].
  destruct (crop_chain_path _ _ _ _ _ _ Hself Hchain) as (m & Hm & Hpath).
  rewrite <- Hpath. clear Hpath.
  simpl. unfold mbind, M_bind, bind.
  destruct (crop mid x y width height st0) as [[c1|ex] st1] eqn:Hcrop; [| done].
  unfold mret, M_ret, ret. intros [= <- <-] Hsave.
  destruct (crop_inv _ _ _ _ _ _ _ _ Hcrop)
    as (m' & r & d & im & ims & xml & Hm' & Home & Hdoc & Him & Hxml & Hvw & Hvh).
  rewrite Hm in Hm'. injection Hm' as <-.
  rewrite (crop_run _ _ _ _ _ _ _ _ _ _ _ _ Hm Home Hdoc Him Hxml Hvw Hvh) in Hcrop.
  injection Hcrop as <- <-.
  set (c := mkSlicer _ _ _ _ _ _) in *.
  set (st1 := mkState _ _ _ _) in *.
  assert (Hc : objs st1 !! length (objs st0) = Some c) by apply lookup_snoc.
  assert (Hcd : docs st1 !! length (docs st0) = Some d) by by apply list_lookup_middle.
  assert (Hreads : Forall (reads_region (ome_tiff_path m) x y width height)
                          (events_since st1 st'')).
  { destruct (save_steps _ _ _ _ _ c x y width height Hc eq_refl Hsave)
      as (ext & wr & Hlog & _ & Hreg & _ & Hex & _).
    rewrite (logged_events_since _ _ _ Hlog).
    apply Forall_app. split; [exact Hreg |].
    eapply Forall_impl; [exact Hex |]. intros e. apply reads_region_other. }
  destruct (save_exact _ _ _ _ _ c x y width height _ d im ims Hc eq_refl eq_refl Hcd Him Hsave)
    as (ext & k & wr & Hlog & Hle & _ & Hop & _ & Hcases & Hex & decoded & Hcr & Hpages & Hlen).
  destruct (no_extraction_calls _ Hex) as (Hop' & Hcr' & _).
  exists c, (size_c (pixels im)), k, decoded.
  rewrite (logged_events_since _ _ _ Hlog) in *.
  rewrite opened_app, crops_made_app, Hop', Hcr', !app_nil_r, Hop, Hcr.
  split; [exact Hc |]. split; [reflexivity |]. split; [reflexivity |].
  split; [exact (get_number_of_channels_run _ _ c _ _ _ _ Hc eq_refl Hcd Him) |].
  split; [reflexivity |]. split; [reflexivity |]. split; [exact Hpages |].
  split; [destruct Hcases as [(_ & Hk & _)|(Hk & _ & _)]; lia |].
  split; [destruct Hcases as [(_ & Hk & _)|(Hk & Hn & _)]; lia |].
  split; [| exact Hreads].
  intros u ->.
  destruct Hcases as [(_ & _ & ex & Hex')|(Hk & Hn & _)]; [discriminate Hex' |]. lia.
Qed.

(** ** Further properties of the class *)

(** *** Construction *)

(** X1.  Without an existing descriptor, a missing path and an empty path
    are the same to [__init__]: it raises the [ValueError] and leaves the
    state as it found it: no object allocated, no file opened. *)
Theorem init_without_source_raises p x y width height st :
  p = None \/ p = Some EmptyString ->
  __init__ p None x y width height st =
    (Raise (ValueError "Either ome_tiff_path or existing_slicer must be provided."), st).
Proof. by intros [-> | ->]. Qed.

(** X2.  Building a descriptor from a path reads the metadata and nothing
    else.  Either the path is empty and nothing is called, or opening the
    file failed and that exception is the result, or the file was opened,
    its metadata asked for, and the file closed, also when reading or
    parsing the metadata failed.  No page is decoded. *)
Theorem from_path_reads_metadata_only path st res st' :
  OMESlicer_from_path path st = (res, st') ->
  (path = EmptyString /\ events_since st st' = [] /\ st' = st) \/
  (events_since st st' = [EvTiffFileOpen path] /\
   exists ex w, TiffFile_open path (world st) = (Raise ex, w) /\ res = Raise ex) \/
  events_since st st' = [EvTiffFileOpen path; EvTiffFileMetadata; EvTiffFileClose].
Proof.
  destruct st as [os ds w lg].
  unfold OMESlicer_from_path, __init__, _load_ome_metadata, events_since; simpl.
  destruct (String.eqb path EmptyString) eqn:Hpath; run.
  { intros [= <- <-]. left. apply String.eqb_eq in Hpath.
    split_and!; [done | apply drop_all | done]. }
  destruct (TiffFile_open path w) as [[tif|ex] w1] eqn:Hopen; run.
  2:{ intros [= <- <-]. right; left. simpl. split; [apply drop_app_length |].
      by exists ex, w1. }
  destruct (TiffFile_ome_metadata tif w1) as [[xml|ex] w2] eqn:Hmeta; run;
    destruct (TiffFile_close tif w2) as [[[]|ex'] w3] eqn:Hclose; run.
  1: destruct (from_xml xml) as [d|ex] eqn:Hxml; run.
  all: intros [= <- <-]; right; right; simpl.
  all: rewrite <- !app_assoc; apply drop_app_length.
Qed.

(** X3.  The metadata string of a descriptor built from a path is the
    string [tifffile] read in the file, as it was read; the descriptor has
    no crop region, no cropped dimensions and no cached image. *)
Theorem from_path_metadata_verbatim path st self st' :
  OMESlicer_from_path path st = (Ok self, st') ->
  exists tif w1 xml w2 o,
    TiffFile_open path (world st) = (Ok tif, w1) /\
    TiffFile_ome_metadata tif w1 = (Ok xml, w2) /\
    get_ome_metadata self st' = (Ok xml, st') /\
    objs st' !! self = Some o /\ ome_tiff_path o = path /\
    crop_info o = None /\ cropped_dimensions o = None /\ pyvips_image o = None.
Proof.
  intros Hinit.
  destruct (from_path_inv _ _ _ _ Hinit)
    as (tif & w1 & xml & w2 & w3 & d & Hopen & Hmeta & _ & _ & -> & ->).
  exists tif, w1, xml, w2. eexists. split; [exact Hopen |]. split; [exact Hmeta |].
  split; [unfold get_ome_metadata; run; reflexivity |].
  split; [apply lookup_snoc |]. done.
Qed.

(** *** [crop] *)

(** X4.  [crop] calls no library that reaches a file and prints nothing,
    whatever it returns: the file system and the log are as before. *)
Theorem crop_does_no_io self x y width height st res st' :
  crop self x y width height st = (res, st') ->
  world st' = world st /\ log st' = log st /\ events_since st st' = [].
Proof.
  intros Hcrop. destruct (crop_frame self x y width height st) as (os & ds & Hst).
  rewrite Hcrop in Hst. simpl in Hst. subst st'. unfold events_since. simpl.
  split_and!; [done | done | apply drop_all].
Qed.

(** X5.  On a descriptor whose document has no image, [crop] raises
    [IndexError]; the descriptor and its document stay as they were. *)
Theorem crop_without_image_raises self x y width height st e r d :
  objs st !! self = Some e -> ome e = Some r -> docs st !! r = Some d ->
  images d = [] ->
  exists st',
    crop self x y width height st = (Raise (IndexError "list index out of range"), st') /\
    objs st' !! self = Some e /\ docs st' !! r = Some d.
Proof.
  intros Hself Home Hdoc Him. destruct st as [os ds w lg]; simpl in *.
  unfold crop, __init__, _update_metadata_for_crop. run.
  eexists. split; [reflexivity |]. simpl. split.
  - by apply lookup_app_l_Some.
  - by do 2 apply lookup_app_l_Some.
Qed.

(** X19.  When the check of an assigned size rejects the width, or accepts
    the width and rejects the height, [crop] raises the exception of the
    check; the descriptor it was called on and its document stay as they
    were, and no file is touched. *)
Theorem crop_rejects_size self x y width height st e r d im ims ex :
  objs st !! self = Some e -> ome e = Some r -> docs st !! r = Some d ->
  images d = im :: ims ->
  validate_size width = Raise ex \/
  (validate_size width = Ok tt /\ validate_size height = Raise ex) ->
  exists st',
    crop self x y width height st = (Raise ex, st') /\
    objs st' !! self = Some e /\ docs st' !! r = Some d /\
    world st' = world st /\ log st' = log st.
Proof.
  intros Hself Home Hdoc Him Hcheck. destruct st as [os ds w lg]; simpl in *.
  unfold crop, __init__, _update_metadata_for_crop.
  destruct Hcheck as [Hvw|[Hvw Hvh]]; run.
  all: eexists; split; [reflexivity |]; simpl.
  all: split; [by apply lookup_app_l_Some |].
  all: split; [| done].
  all: rewrite <- ?app_assoc; by apply lookup_app_l_Some.
Qed.

(** X6.  [crop] never compares the region with the image: if it returns
    for one offset it returns for every offset, the same reference, the
    same metadata string and the same reported dimensions; the offset is
    only recorded. *)
Theorem crop_accepts_any_offset self x y width height st child st' x' y' :
  crop self x y width height st = (Ok child, st') ->
  exists st'' c c',
    crop self x' y' width height st = (Ok child, st'') /\
    objs st' !! child = Some c /\ objs st'' !! child = Some c' /\
    c' = set_crop_info (Some (x', y', width, height)) c /\
    docs st'' = docs st'.
Proof.
  intros Hcrop.
  destruct (crop_inv _ _ _ _ _ _ _ _ Hcrop)
    as (e & r & d & im & ims & xml & Hself & Home & Hdoc & Him & Hxml & Hvw & Hvh).
  rewrite (crop_run _ _ _ _ _ _ _ _ _ _ _ _ Hself Home Hdoc Him Hxml Hvw Hvh) in Hcrop.
  injection Hcrop as <- <-.
  eexists _, _, _.
  split; [by apply (crop_run _ x' y' _ _ _ _ _ _ _ _ _ Hself Home Hdoc Him Hxml Hvw Hvh) |].
  simpl. split; [apply lookup_snoc |]. split; [apply lookup_snoc |]. done.
Qed.

(** X7.  Along a chain of crops of any length, each descriptor holds a
    document equal to the one the first descriptor holds and names the same
    file; so the last one answers the channel count and the pixel type as
    the first does.  The chain touches no file. *)
Theorem crop_chain_keeps_document regions self o r d st child st' :
  objs st !! self = Some o -> ome o = Some r -> docs st !! r = Some d ->
  crop_chain self regions st = (Ok child, st') ->
  exists c r',
    objs st' !! child = Some c /\ ome c = Some r' /\ docs st' !! r' = Some d /\
    ome_tiff_path c = ome_tiff_path o /\
    world st' = world st /\
    (forall n, get_number_of_channels self st = (n, st) ->
       get_number_of_channels child st' = (n, st')) /\
    (forall dt, get_dtype_from_metadata self st = (dt, st) ->
       get_dtype_from_metadata child st' = (dt, st')).
Proof.
  intros Hself Home Hdoc Hchain.
  destruct (crop_chain_holds _ _ _ _ _ _ _ _ Hself Home Hdoc Hchain)
    as (c & r' & Hc & Hr' & Hd & Hpath & Hw & _).
  exists c, r'. split; [exact Hc |]. split; [exact Hr' |]. split; [exact Hd |].
  split; [exact Hpath |]. split; [exact Hw |].
  exact (accessors_same _ _ _ _ _ _ _ _ _ Hself Home Hdoc Hc Hr' Hd).
Qed.

(** *** [load_pyvips_image] *)

(** X8.  When the decoder raises, [load_pyvips_image] raises that exception
    and caches nothing: no object changes, so the next call asks the
    decoder again. *)
Theorem load_failure_caches_nothing self p st o ex st' :
  objs st !! self = Some o -> pyvips_image o = None ->
  load_pyvips_image self p st = (Raise ex, st') ->
  objs st' = objs st /\ docs st' = docs st /\
  events_since st st' = [EvNewFromFile (ome_tiff_path o) p "sequential"] /\
  exists w', Image_new_from_file (ome_tiff_path o) p "sequential" (world st) = (Raise ex, w').
Proof.
  intros Hself Himg. destruct st as [os ds w lg]; simpl in *.
  assert (Hlt : (self < length os)%nat) by by eapply lookup_lt_Some.
  unfold load_pyvips_image, events_since; run.
  destruct (Image_new_from_file _ _ _ _) as [[i|ex'] w1] eqn:Hopen; run.
  - rewrite !list_lookup_insert_eq by done. simpl. done.
  - intros [= <- <-]. simpl. split_and!; [done | done | apply drop_app_length |].
    by exists w1.
Qed.

(** X9.  A descriptor returned by [crop] starts with no cached image, also
    when its parent has one, and its first [load_pyvips_image] makes one
    call: it decodes the requested page of the source file.  No crop is
    applied: the image cached is the whole page, not the region. *)
Theorem load_on_crop_reads_whole_page parent x y width height st child st1 e p res st2 :
  objs st !! parent = Some e ->
  crop parent x y width height st = (Ok child, st1) ->
  load_pyvips_image child p st1 = (res, st2) ->
  events_since st1 st2 = [EvNewFromFile (ome_tiff_path e) p "sequential"] /\
  exists r w',
    Image_new_from_file (ome_tiff_path e) p "sequential" (world st) = (r, w') /\
    world st2 = w' /\
    match r with
    | Ok img => res = Ok (Some img)
    | Raise ex => res = Raise ex
    end.
Proof.
  intros Hself Hcrop.
  destruct (crop_inv _ _ _ _ _ _ _ _ Hcrop)
    as (e' & r & d & im & ims & xml & Hself' & Home & Hdoc & Him & Hxml & Hvw & Hvh).
  rewrite (crop_run _ _ _ _ _ _ _ _ _ _ _ _ Hself' Home Hdoc Him Hxml Hvw Hvh) in Hcrop.
  rewrite Hself in Hself'. injection Hself' as <-.
  injection Hcrop as <- <-.
  unfold load_pyvips_image, events_since; run.
  destruct (Image_new_from_file _ _ _ _) as [[i|ex'] w1] eqn:Hopen; run.
  all: intros [= <- <-]; simpl; (split; [apply drop_app_length |]).
  all: eexists _, _; split; [reflexivity |]; done.
Qed.

(** *** The accessors *)

(** X10.  The four accessors leave the state as it is, whatever they return,
    an exception included. *)
Theorem accessors_leave_state self st :
  (get_image_dimensions self st).2 = st /\
  (get_number_of_channels self st).2 = st /\
  (get_dtype_from_metadata self st).2 = st /\
  (get_ome_metadata self st).2 = st.
Proof.
  split; [| split; [apply get_number_of_channels_pure |
                    split; [apply get_dtype_from_metadata_pure |]]].
  - unfold get_image_dimensions.
    destruct (objs st !! self) as [o|] eqn:Hself; run; [| reflexivity].
    destruct (cropped_dimensions o) as [[width height]|] eqn:Hdims; run;
      (destruct (ome o) as [r|] eqn:Home; run; [| reflexivity]);
      (destruct (docs st !! r) as [d|] eqn:Hdoc; run; [| reflexivity]);
      destruct (images d) as [|im ims] eqn:Him; run; reflexivity.
  - unfold get_ome_metadata.
    destruct (objs st !! self) as [o|] eqn:Hself; run; reflexivity.
Qed.

(** *** [save] *)

(** X12.  [save] assigns no attribute and changes no document: the objects
    and the documents of the store are the same after it, whatever it
    returns. *)
Theorem save_leaves_store self output_path st res st' :
  save self output_path st = (res, st') ->
  objs st' = objs st /\ docs st' = docs st.
Proof.
  intros Hsave.
  destruct (save_cases _ _ _ _ _ Hsave) as [[-> _]|(o & x & y & width & height & Hself & Hcrop)];
    [done |].
  destruct (save_steps _ _ _ _ _ _ _ _ _ _ Hself Hcrop Hsave) as (ext & wr & Hlog & _).
  unfold logged in Hlog. by rewrite Hlog.
Qed.

(** X13.  The calls [save] makes on the output file are none (a channel
    could not be extracted), or the opening alone (it raised), or the
    opening of [output_path], the page writes, and the closing.  So the
    writer is closed whenever it was opened, also when a write raises, and
    [save] does not return without having closed it. *)
Theorem save_closes_writer self output_path st res st' o x y width height r d im ims :
  objs st !! self = Some o -> crop_info o = Some (x, y, width, height) ->
  ome o = Some r -> docs st !! r = Some d -> images d = im :: ims ->
  save self output_path st = (res, st') ->
  (output_calls (events_since st st') = [] /\ exists ex, res = Raise ex) \/
  (output_calls (events_since st st') = [EvWriterOpen output_path true] /\
   exists ex, res = Raise ex) \/
  output_calls (events_since st st') =
    EvWriterOpen output_path true
      :: (EvWrite <$> written (events_since st st')) ++ [EvWriterClose].
Proof.
  intros Hself Hcrop Home Hdoc Him Hsave.
  destruct (save_exact _ _ _ _ _ _ _ _ _ _ _ _ _ _ Hself Hcrop Home Hdoc Him Hsave)
    as (ext & k & wr & Hlog & _ & _ & _ & Hout & Hcases & _).
  rewrite (logged_events_since _ _ _ Hlog), output_calls_app, written_app,
    (output_calls_no_output _ Hout), (written_no_output _ Hout).
  rewrite !app_nil_l.
  destruct Hcases as [(-> & _ & Hex)|(_ & _ & [(-> & Hex)|(wl & j & -> & Hpg & _)])].
  - by left.
  - right; left. by split.
  - right; right.
    change ([EvWriterOpen output_path true] ++ wl ++ [EvWriterClose])
      with (EvWriterOpen output_path true :: wl ++ [EvWriterClose]).
    rewrite output_calls_cons_output by done.
    rewrite output_calls_app, (output_calls_pages _ Hpg).
    change (written (EvWriterOpen output_path true :: wl ++ [EvWriterClose]))
      with (written (wl ++ [EvWriterClose])).
    rewrite written_app. simpl. by rewrite app_nil_r.
Qed.

(** X14.  What [save] prints is a prefix of: one "Processing channel i/n"
    line per channel, i from 1 to n, then one "Writing channel i/n" line
    per channel; and it is all of these lines when [save] returns. *)
Theorem save_progress_lines self output_path st res st' o x y width height r d im ims :
  objs st !! self = Some o -> crop_info o = Some (x, y, width, height) ->
  ome o = Some r -> docs st !! r = Some d -> images d = im :: ims ->
  save self output_path st = (res, st') ->
  printed (events_since st st') `prefix_of`
    (processing_line (size_c (pixels im)) <$> range (size_c (pixels im))) ++
    (writing_line (size_c (pixels im)) <$> range (size_c (pixels im))) /\
  (forall u, res = Ok u ->
     printed (events_since st st') =
       (processing_line (size_c (pixels im)) <$> range (size_c (pixels im))) ++
       (writing_line (size_c (pixels im)) <$> range (size_c (pixels im)))).
Proof.
  intros Hself Hcrop Home Hdoc Him Hsave.
  destruct (save_exact _ _ _ _ _ _ _ _ _ _ _ _ _ _ Hself Hcrop Home Hdoc Him Hsave)
    as (ext & k & wr & Hlog & _ & Hpr & _ & _ & Hcases & _).
  set (n := size_c (pixels im)) in *.
  rewrite (logged_events_since _ _ _ Hlog), printed_app, Hpr.
  destruct Hcases
    as [(-> & _ & ex & ->)|(_ & -> & [(-> & ex & ->)|(wl & j & -> & _ & _ & _ & Hprw & Hj)])].
  - split; [| done]. rewrite app_nil_r, fmap_take.
    apply prefix_app_r, prefix_take.
  - split; [| done]. rewrite take_ge by (rewrite range_length; lia). simpl.
    rewrite app_nil_r. by apply prefix_app_r.
  - rewrite take_ge by (rewrite range_length; lia). simpl.
    rewrite printed_app, Hprw. simpl. rewrite app_nil_r. split.
    + apply prefix_app. rewrite fmap_take. apply prefix_take.
    + intros u Hu. rewrite (Hj u Hu), take_ge by (rewrite range_length; lia). done.
Qed.

(** X15.  [save] decodes the channels in order and stops at the first one
    it cannot extract: the pages opened are those of the first [k]
    channels, and either all [k] were buffered, or all but the last, and
    then [save] raised without any call on the output file.  A call on the
    output file means all channels were opened. *)
Theorem save_stops_at_first_failure
    self output_path st res st' o x y width height r d im ims :
  objs st !! self = Some o -> crop_info o = Some (x, y, width, height) ->
  ome o = Some r -> docs st !! r = Some d -> images d = im :: ims ->
  save self output_path st = (res, st') ->
  exists k,
    (k <= Z.to_nat (size_c (pixels im)))%nat /\
    opened (events_since st st') =
      pair (ome_tiff_path o) <$> take k (range (size_c (pixels im))) /\
    (length (buffered (events_since st st')) = k \/
     (S (length (buffered (events_since st st'))) = k /\
      output_calls (events_since st st') = [] /\ exists ex, res = Raise ex)) /\
    (output_calls (events_since st st') <> [] -> k = Z.to_nat (size_c (pixels im))).
Proof.
  intros Hself Hcrop Home Hdoc Him Hsave.
  destruct (save_exact _ _ _ _ _ _ _ _ _ _ _ _ _ _ Hself Hcrop Home Hdoc Him Hsave)
    as (ext & k & wr & Hlog & Hle & _ & Hop & Hout & Hcases & _).
  exists k. split; [exact Hle |].
  rewrite (logged_events_since _ _ _ Hlog), opened_app, buffered_app, output_calls_app,
    (output_calls_no_output _ Hout), Hop. simpl.
  destruct Hcases
    as [(-> & Hk & Hex)|(Hk & Hn & [(-> & _)|(wl & j & -> & Hpg & _)])].
  - simpl. rewrite !app_nil_r. split_and!; [done | by right | done].
  - simpl. rewrite !app_nil_r. split_and!; [done | by left | done].
  - destruct (pages_no_extraction _ Hpg) as (Hop' & Hbuf' & _).
    simpl. rewrite opened_app, buffered_app, Hop', Hbuf'. simpl.
    rewrite !app_nil_r. split_and!; [done | by left | done].
Qed.

(** X16.  For a document that declares no channel (zero, or a negative
    count), [save] decodes nothing, opens the output file all the same,
    and writes no page into it. *)
Theorem save_without_channels self output_path st res st' o x y width height r d im ims :
  objs st !! self = Some o -> crop_info o = Some (x, y, width, height) ->
  ome o = Some r -> docs st !! r = Some d -> images d = im :: ims ->
  size_c (pixels im) <= 0 ->
  save self output_path st = (res, st') ->
  opened (events_since st st') = [] /\
  printed (events_since st st') = [] /\
  written (events_since st st') = [] /\
  created (events_since st st') = [output_path].
Proof.
  intros Hself Hcrop Home Hdoc Him Hn Hsave.
  destruct (save_exact _ _ _ _ _ _ _ _ _ _ _ _ _ _ Hself Hcrop Home Hdoc Him Hsave)
    as (ext & k & wr & Hlog & Hle & Hpr & Hop & Hout & Hcases & _).
  assert (Hk : k = 0%nat) by lia. subst k.
  rewrite (logged_events_since _ _ _ Hlog), opened_app, printed_app, written_app,
    created_app, Hop, Hpr, (written_no_output _ Hout), (created_no_output _ Hout).
  simpl.
  destruct Hcases
    as [(_ & Hk & _)|(_ & _ & [(-> & _)|(wl & j & -> & Hpg & Hj & Hwl & Hprw & _)])];
    [done | done |].
  assert (Hj0 : j = 0%nat) by lia. subst j.
  destruct (pages_no_extraction _ Hpg) as (Hop' & _ & Hcr').
  simpl. rewrite opened_app, printed_app, written_app, created_app, Hop', Hcr', Hprw.
  destruct (written wl); [done | simpl in Hwl; lia].
Qed.

(** X17.  Crops do not compose: the descriptor at the end of a chain has
    the metadata string, the dimensions and the region that a single crop
    of the first descriptor with the last region gets; the regions before
    leave no trace in it. *)
Theorem crop_chain_is_last_crop regions self o r d x y width height st child st' :
  objs st !! self = Some o -> ome o = Some r -> docs st !! r = Some d ->
  crop_chain self (regions ++ [(x, y, width, height)]) st = (Ok child, st') ->
  exists c im ims single st1 c1,
    objs st' !! child = Some c /\
    images d = im :: ims /\
    get_image_dimensions child st' = (Ok (width, height, size_c (pixels im)), st') /\
    crop self x y width height st = (Ok single, st1) /\
    objs st1 !! single = Some c1 /\
    ome_metadata c = ome_metadata c1 /\
    cropped_dimensions c = cropped_dimensions c1 /\
    crop_info c = crop_info c1 /\
    ome_tiff_path c = ome_tiff_path c1.
Proof.
  intros Hself Home Hdoc. rewrite crop_chain_app. unfold mbind, M_bind, bind.
  destruct (crop_chain self regions st) as [[mid|ex] st0] eqn:Hchain; [| done].
  destruct (crop_chain_holds _ _ _ _ _ _ _ _ Hself Home Hdoc Hchain)
    as (m & rm & Hm & Hrm & Hdm & Hpath & _ & _).
  simpl. unfold mbind, M_bind, bind.
  destruct (crop mid x y width height st0) as [[c1|ex] st1] eqn:Hcrop; [| done].
  unfold mret, M_ret, ret. intros [= <- <-].
  destruct (crop_result _ _ _ _ _ _ _ _ _ _ _ Hm Hrm Hdm Hcrop)
    as (im & ims & xml & Him & Hxml & Hvw & Hvh & -> & ->).
  eexists _, im, ims, _, _, _. split; [apply lookup_snoc |]. split; [exact Him |].
  split.
  { eapply get_image_dimensions_cropped; [apply lookup_snoc | reflexivity | reflexivity | | exact Him].
    simpl. by apply list_lookup_middle. }
  split; [exact (crop_run _ _ _ _ _ _ _ _ _ _ _ _ Hself Home Hdoc Him Hxml Hvw Hvh) |].
  split; [apply lookup_snoc |]. simpl. by rewrite Hpath.
Qed.

(** X18.  Every page [save] writes, in a run that returns or not, is asked
    for with the same encoding (minisblack, LZW, 512x512 tiles, no
    [metadata] argument); the page at position [i] carries the array
    buffered at position [i], and the metadata string of the descriptor as
    its description when [i] is 0, no description otherwise. *)
Theorem save_page_arguments self output_path st res st' o x y width height i page :
  objs st !! self = Some o -> crop_info o = Some (x, y, width, height) ->
  save self output_path st = (res, st') ->
  written (events_since st st') !! i = Some page ->
  buffered (events_since st st') !! i = Some (wa_data page) /\
  wa_photometric page = "minisblack" /\ wa_compression page = "lzw" /\
  wa_tile page = (512, 512) /\ wa_metadata page = None /\
  wa_description page = (if decide (i = 0%nat) then ome_metadata o else None).
Proof.
  intros Hself Hcrop Hsave.
  destruct (save_pages _ _ _ _ _ _ _ _ _ _ Hself Hcrop Hsave)
    as (ext & wr & Hlog & Hout & Hex & Hcases).
  rewrite (logged_events_since _ _ _ Hlog), written_app, buffered_app,
    (written_no_output _ Hout), (buffered_no_extraction _ Hex), app_nil_r.
  simpl. destruct Hcases as [[-> _]|(n & k & _ & _ & _ & _ & -> & _)]; [done |].
  intros Hpage. apply lookup_take_Some in Hpage as [Hpage _]. revert Hpage.
  unfold pages. rewrite list_lookup_imap.
  destruct (buffered ext !! i) as [a|]; [| done]. by intros [= <-].
Qed.

End Proofs.

(** ** The claims on the small file system *)

Lemma save_embeds_cropped_metadata_witness :
  exists e r src xml n im ims,
    objs loaded !! 0%nat = Some e /\ ome e = Some r /\ docs loaded !! r = Some src /\
    get_number_of_channels 0 loaded = (Ok n, loaded) /\
    to_xml (crop_document 2 2 src) = Ok xml /\
    images (crop_document 2 2 src) = im :: ims /\
    size_x (pixels im) = 2 /\ size_y (pixels im) = 2 /\
    created (events_since cropped saved) = ["out.tiff"] /\
    length (written (events_since cropped saved)) = Z.to_nat n /\
    forall i page,
      written (events_since cropped saved) !! i = Some page ->
      wa_description page = (if decide (i = 0%nat) then Some xml else None) /\
      wa_metadata page = None.
Proof.
  apply (save_embeds_cropped_metadata 0 1 1 2 2 loaded 1 cropped "out.tiff" tt saved).
  - vm_compute. reflexivity.
  - vm_compute. reflexivity.
Defined.

Lemma crops_leave_parent_unchanged_witness :
  objs (crops 0 [(1, 1, 2, 2); (0, 0, 9, 9)] loaded) !! 0%nat = Some small_slicer /\
  docs (crops 0 [(1, 1, 2, 2); (0, 0, 9, 9)] loaded) !! 0%nat
    = Some (Ref.doc 4 3 2 UINT16) /\
  (forall dims, get_image_dimensions 0 loaded = (dims, loaded) ->
     get_image_dimensions 0 (crops 0 [(1, 1, 2, 2); (0, 0, 9, 9)] loaded)
       = (dims, crops 0 [(1, 1, 2, 2); (0, 0, 9, 9)] loaded)) /\
  (forall xml, get_ome_metadata 0 loaded = (xml, loaded) ->
     get_ome_metadata 0 (crops 0 [(1, 1, 2, 2); (0, 0, 9, 9)] loaded)
       = (xml, crops 0 [(1, 1, 2, 2); (0, 0, 9, 9)] loaded)).
Proof.
  apply (crops_leave_parent_unchanged 0 [(1, 1, 2, 2); (0, 0, 9, 9)] loaded
           small_slicer 0 (Ref.doc 4 3 2 UINT16)).
  - vm_compute. reflexivity.
  - reflexivity.
  - vm_compute. reflexivity.
Defined.

Lemma save_without_crop_raises_witness :
  save 0 "out.tiff" (crops 0 [(1, 1, 2, 2)] loaded) =
    (Raise (ValueError "This slicer instance has no crop info; nothing to save."),
     crops 0 [(1, 1, 2, 2)] loaded).
Proof.
  apply (save_without_crop_raises "small.ome.tiff" Ref.boot 0 loaded [(1, 1, 2, 2)]
           "out.tiff").
  vm_compute. reflexivity.
Defined.

(** C4, as stated, fails: after [crop(1, 1, 2, 2)] of the 4x3 image, no
    document the crop holds declares the size 2x2; the one it holds still
    declares 4x3. *)
Lemma crop_document_not_overwritten :
  crop 0 1 1 2 2 loaded = (Ok 1%nat, cropped) /\
  ~ exists c r d im ims,
      objs cropped !! 1%nat = Some c /\ ome c = Some r /\ docs cropped !! r = Some d /\
      images d = im :: ims /\ size_x (pixels im) = 2 /\ size_y (pixels im) = 2.
Proof.
  split; [vm_compute; reflexivity |].
  intros (c & r & d & im & ims & Hc & Hr & Hd & Him & Hx & _).
  vm_compute in Hc. injection Hc as <-. simpl in Hr. injection Hr as <-.
  vm_compute in Hd. injection Hd as <-. injection Him as <- _.
  discriminate Hx.
Qed.

Lemma crop_holds_source_copy_witness :
  exists e r0 src im ims c r xml,
    objs loaded8 !! 0%nat = Some e /\ ome e = Some r0 /\ docs loaded8 !! r0 = Some src /\
    images src = im :: ims /\
    objs cropped8 !! 1%nat = Some c /\ ome c = Some r /\
    r <> r0 /\ docs loaded8 !! r = None /\ docs cropped8 !! r = Some src /\
    docs cropped8 !! r0 = Some src /\
    crop_info c = Some (1, 1, 2, 2) /\
    ome_metadata c = Some xml /\
    to_xml (crop_document 2 2 src) = Ok xml /\
    crop_document 2 2 src =
      mkOME (mkImage (mkPixels 2 2 (size_c (pixels im)) (type (pixels im))
                        (pixels_rest (pixels im))) (image_rest im) :: ims)
            (ome_rest src) /\
    get_image_dimensions 1 cropped8 = (Ok (2, 2, size_c (pixels im)), cropped8) /\
    (forall n, get_number_of_channels 0 loaded8 = (n, loaded8) ->
       get_number_of_channels 1 cropped8 = (n, cropped8)) /\
    (forall dt, get_dtype_from_metadata 0 loaded8 = (dt, loaded8) ->
       get_dtype_from_metadata 1 cropped8 = (dt, cropped8)).
Proof.
  apply (crop_holds_source_copy 0 1 1 2 2 loaded8 1 cropped8).
  vm_compute. reflexivity.
Defined.

Lemma save_writes_uint16_witness :
  Forall (fun t => t = np_uint16) (buffered_dtypes (events_since cropped saved)) /\
  (forall i page,
     written (events_since cropped saved) !! i = Some page ->
     wa_dtype page = np_uint16 /\
     built (events_since cropped saved) !! i = Some (wa_data page, np_uint16)) /\
  (forall u, Ok tt = Ok u ->
     exists n,
       get_number_of_channels 1 cropped = (Ok n, cropped) /\
       length (written (events_since cropped saved)) = Z.to_nat n).
Proof.
  apply (save_writes_uint16 1 "out.tiff" cropped (Ok tt) saved).
  vm_compute. reflexivity.
Defined.

Lemma get_dtype_from_metadata_misses_table_witness :
  dtype_map !! PixelType_value UINT8 = Some np_uint8 /\
  get_dtype_from_metadata 0 loaded8 = (Ok np_uint16, loaded8) /\
  (forall t,
     dtype_map !! PixelType_value
                    (type (pixels (mkImage (mkPixels 4 3 2 UINT8 EmptyString) EmptyString)))
       = Some t ->
     t <> np_uint16 ->
     get_dtype_from_metadata 0 loaded8 <> (Ok t, loaded8)).
Proof.
  split; [vm_compute; reflexivity |].
  apply (get_dtype_from_metadata_misses_table 0 loaded8
           (mkSlicer "bytes.ome.tiff" None (Some (Ref.render (Ref.doc 4 3 2 UINT8)))
                     (Some 0%nat) None None)
           0 (Ref.doc 4 3 2 UINT8) (mkImage (mkPixels 4 3 2 UINT8 EmptyString) EmptyString) []).
  - vm_compute. reflexivity.
  - reflexivity.
  - vm_compute. reflexivity.
  - reflexivity.
Defined.

Lemma loaded_dimensions_are_declared_witness :
  exists tif w1 xml w2 d,
    TiffFile_open "small.ome.tiff" (world Ref.boot) = (Ok tif, w1) /\
    TiffFile_ome_metadata tif w1 = (Ok xml, w2) /\
    from_xml xml = Ok d /\
    get_image_dimensions 0 loaded =
      (match images d with
       | im :: _ => Ok (size_x (pixels im), size_y (pixels im), size_c (pixels im))
       | [] => Raise (IndexError "list index out of range")
       end, loaded).
Proof.
  apply (loaded_dimensions_are_declared "small.ome.tiff" Ref.boot 0 loaded).
  vm_compute. reflexivity.
Defined.

Lemma save_extracts_then_writes_witness :
  exists ext wr,
    events_since cropped saved = ext ++ wr /\
    Forall (fun e => is_output e = false) ext /\
    Forall (fun e => is_extraction e = false) wr /\
    ((wr = [] /\ forall u, Ok tt <> Ok u) \/
     exists n k,
       get_number_of_channels 1 cropped = (Ok n, cropped) /\
       (opened ext).*2 = range n /\
       length (buffered ext) = Z.to_nat n /\
       created wr = ["out.tiff"] /\
       wa_data <$> written wr = take k (buffered ext) /\
       (forall u, Ok tt = Ok u -> wa_data <$> written wr = buffered ext)).
Proof.
  apply (save_extracts_then_writes 1 "out.tiff" cropped (Ok tt) saved).
  vm_compute. reflexivity.
Defined.

Lemma crop_chain_reads_original_witness :
  exists c n k decoded,
    objs chained !! 2%nat = Some c /\
    ome_tiff_path c = ome_tiff_path small_slicer /\
    crop_info c = Some (1, 1, 2, 2) /\
    get_number_of_channels 2 chained = (Ok n, chained) /\
    opened (events_since chained saved_chain)
      = pair (ome_tiff_path small_slicer) <$> take k (range n) /\
    crops_made (events_since chained saved_chain) =
      (fun img => (img, (1, 1, 2, 2))) <$> decoded /\
    Forall2 (page_of (ome_tiff_path small_slicer)) (take (length decoded) (range n)) decoded /\
    (length decoded <= k <= S (length decoded))%nat /\
    (0 < n -> (0 < k)%nat) /\
    (forall u, Ok tt = Ok u -> k = Z.to_nat n /\ length decoded = Z.to_nat n) /\
    Forall (reads_region (ome_tiff_path small_slicer) 1 1 2 2)
           (events_since chained saved_chain).
Proof.
  apply (crop_chain_reads_original [(1, 0, 3, 3)] 0 small_slicer 1 1 2 2 loaded 2 chained
           "out.tiff" (Ok tt) saved_chain).
  - vm_compute. reflexivity.
  - vm_compute. reflexivity.
  - vm_compute. reflexivity.
Defined.

Lemma load_pyvips_image_ignores_page_witness :
  (forall q, load_pyvips_image 0 q (load_pyvips_image 0 1 loaded).2
             = (Ok (Ref.small_tiff !! 1%nat), (load_pyvips_image 0 1 loaded).2)) /\
  (forall o, objs loaded !! 0%nat = Some o -> pyvips_image o = None ->
     exists i w',
       Image_new_from_file (ome_tiff_path o) 1 "sequential" (world loaded) = (Ok i, w') /\
                  Ref.small_tiff !! 1%nat = Some i).
Proof.
  apply (load_pyvips_image_ignores_page 0 1 loaded (Ref.small_tiff !! 1%nat)
           (load_pyvips_image 0 1 loaded).2).
  vm_compute. reflexivity.
Defined.

(** ** The further properties on the small file system *)

Lemma init_without_source_raises_witness :
  __init__ (Some EmptyString) None 0 0 0 0 Ref.boot =
    (Raise (ValueError "Either ome_tiff_path or existing_slicer must be provided."),
     Ref.boot).
Proof.
  apply (init_without_source_raises (Some EmptyString) 0 0 0 0 Ref.boot).
  right. reflexivity.
Defined.

Lemma from_path_reads_metadata_only_witness :
  ("small.ome.tiff" = EmptyString /\ events_since Ref.boot loaded = [] /\
   loaded = Ref.boot) \/
  (events_since Ref.boot loaded = [EvTiffFileOpen "small.ome.tiff"] /\
   exists ex w,
     TiffFile_open "small.ome.tiff" (world Ref.boot) = (Raise ex, w) /\
     Ok 0%nat = Raise ex) \/
  events_since Ref.boot loaded =
    [EvTiffFileOpen "small.ome.tiff"; EvTiffFileMetadata; EvTiffFileClose].
Proof.
  apply (from_path_reads_metadata_only "small.ome.tiff" Ref.boot (Ok 0%nat) loaded).
  vm_compute. reflexivity.
Defined.

Lemma from_path_metadata_verbatim_witness :
  exists tif w1 xml w2 o,
    TiffFile_open "small.ome.tiff" (world Ref.boot) = (Ok tif, w1) /\
    TiffFile_ome_metadata tif w1 = (Ok xml, w2) /\
    get_ome_metadata 0 loaded = (Ok xml, loaded) /\
    objs loaded !! 0%nat = Some o /\ ome_tiff_path o = "small.ome.tiff" /\
    crop_info o = None /\ cropped_dimensions o = None /\ pyvips_image o = None.
Proof.
  apply (from_path_metadata_verbatim "small.ome.tiff" Ref.boot 0 loaded).
  vm_compute. reflexivity.
Defined.

Lemma crop_does_no_io_witness :
  world cropped = world loaded /\ log cropped = log loaded /\
  events_since loaded cropped = [].
Proof.
  apply (crop_does_no_io 0 1 1 2 2 loaded (Ok 1%nat) cropped).
  vm_compute. reflexivity.
Defined.

Lemma crop_without_image_raises_witness :
  exists st',
    crop 0 0 0 1 1 loaded_bare = (Raise (IndexError "list index out of range"), st') /\
    objs st' !! 0%nat
      = Some (mkSlicer "bare.ome.tiff" None (Some "<OME/>") (Some 0%nat) None None) /\
    docs st' !! 0%nat = Some (mkOME [] EmptyString).
Proof.
  apply (crop_without_image_raises 0 0 0 1 1 loaded_bare
           (mkSlicer "bare.ome.tiff" None (Some "<OME/>") (Some 0%nat) None None)
           0 (mkOME [] EmptyString)).
  - vm_compute. reflexivity.
  - reflexivity.
  - vm_compute. reflexivity.
  - reflexivity.
Defined.

Lemma crop_accepts_any_offset_witness :
  exists st'' c c',
    crop 0 3 2 2 2 loaded = (Ok 1%nat, st'') /\
    objs cropped !! 1%nat = Some c /\ objs st'' !! 1%nat = Some c' /\
    c' = set_crop_info (Some (3, 2, 2, 2)) c /\
    docs st'' = docs cropped.
Proof.
  apply (crop_accepts_any_offset 0 1 1 2 2 loaded 1 cropped 3 2).
  vm_compute. reflexivity.
Defined.

Lemma crop_chain_keeps_document_witness :
  exists c r',
    objs chained !! 2%nat = Some c /\ ome c = Some r' /\
    docs chained !! r' = Some (Ref.doc 4 3 2 UINT16) /\
    ome_tiff_path c = ome_tiff_path small_slicer /\
    world chained = world loaded /\
    (forall n, get_number_of_channels 0 loaded = (n, loaded) ->
       get_number_of_channels 2 chained = (n, chained)) /\
    (forall dt, get_dtype_from_metadata 0 loaded = (dt, loaded) ->
       get_dtype_from_metadata 2 chained = (dt, chained)).
Proof.
  apply (crop_chain_keeps_document [(1, 0, 3, 3); (1, 1, 2, 2)] 0 small_slicer 0
           (Ref.doc 4 3 2 UINT16) loaded 2 chained).
  - vm_compute. reflexivity.
  - reflexivity.
  - vm_compute. reflexivity.
  - vm_compute. reflexivity.
Defined.

Lemma load_failure_caches_nothing_witness :
  objs (load_pyvips_image 0 7 loaded).2 = objs loaded /\
  docs (load_pyvips_image 0 7 loaded).2 = docs loaded /\
  events_since loaded (load_pyvips_image 0 7 loaded).2
    = [EvNewFromFile (ome_tiff_path small_slicer) 7 "sequential"] /\
  exists w',
    Image_new_from_file (ome_tiff_path small_slicer) 7 "sequential" (world loaded)
      = (Raise (Ref.VipsError "bad page number"), w').
Proof.
  apply (load_failure_caches_nothing 0 7 loaded small_slicer
           (Ref.VipsError "bad page number") (load_pyvips_image 0 7 loaded).2).
  - vm_compute. reflexivity.
  - reflexivity.
  - vm_compute. reflexivity.
Defined.

Lemma load_on_crop_reads_whole_page_witness :
  events_since cropped (load_pyvips_image 1 0 cropped).2
    = [EvNewFromFile (ome_tiff_path small_slicer) 0 "sequential"] /\
  exists r w',
    Image_new_from_file (ome_tiff_path small_slicer) 0 "sequential" (world loaded)
      = (r, w') /\
    world (load_pyvips_image 1 0 cropped).2 = w' /\
    match r with
    | Ok img => Ok (Ref.small_tiff !! 0%nat) = Ok (Some img)
    | Raise ex => Ok (Ref.small_tiff !! 0%nat) = Raise ex
    end.
Proof.
  apply (load_on_crop_reads_whole_page 0 1 1 2 2 loaded 1 cropped small_slicer 0
           (Ok (Ref.small_tiff !! 0%nat)) (load_pyvips_image 1 0 cropped).2).
  - vm_compute. reflexivity.
  - vm_compute. reflexivity.
  - vm_compute. reflexivity.
Defined.

Lemma save_leaves_store_witness :
  objs saved = objs cropped /\ docs saved = docs cropped.
Proof.
  apply (save_leaves_store 1 "out.tiff" cropped (Ok tt) saved).
  vm_compute. reflexivity.
Defined.

Lemma save_closes_writer_witness :
  (output_calls (events_since cropped saved) = [] /\ exists ex, Ok tt = Raise ex) \/
  (output_calls (events_since cropped saved) = [EvWriterOpen "out.tiff" true] /\
   exists ex, Ok tt = Raise ex) \/
  output_calls (events_since cropped saved) =
    EvWriterOpen "out.tiff" true
      :: (EvWrite <$> written (events_since cropped saved)) ++ [EvWriterClose].
Proof.
  apply (save_closes_writer 1 "out.tiff" cropped (Ok tt) saved small_crop 1 1 2 2 1
           (Ref.doc 4 3 2 UINT16) small_image []).
  - vm_compute. reflexivity.
  - reflexivity.
  - reflexivity.
  - vm_compute. reflexivity.
  - reflexivity.
  - vm_compute. reflexivity.
Defined.

Lemma save_progress_lines_witness :
  printed (events_since cropped saved) `prefix_of`
    (processing_line (size_c (pixels small_image)) <$> range (size_c (pixels small_image))) ++
    (writing_line (size_c (pixels small_image)) <$> range (size_c (pixels small_image))) /\
  (forall u, Ok tt = Ok u ->
     printed (events_since cropped saved) =
       (processing_line (size_c (pixels small_image))
          <$> range (size_c (pixels small_image))) ++
       (writing_line (size_c (pixels small_image))
          <$> range (size_c (pixels small_image)))).
Proof.
  apply (save_progress_lines 1 "out.tiff" cropped (Ok tt) saved small_crop 1 1 2 2 1
           (Ref.doc 4 3 2 UINT16) small_image []).
  - vm_compute. reflexivity.
  - reflexivity.
  - reflexivity.
  - vm_compute. reflexivity.
  - reflexivity.
  - vm_compute. reflexivity.
Defined.

Lemma save_stops_at_first_failure_witness :
  exists k,
    (k <= Z.to_nat (size_c (pixels small_image)))%nat /\
    opened (events_since cropped_outside (save 1 "out.tiff" cropped_outside).2) =
      pair (ome_tiff_path outside_crop) <$> take k (range (size_c (pixels small_image))) /\
    (length (buffered (events_since cropped_outside (save 1 "out.tiff" cropped_outside).2))
       = k \/
     (S (length (buffered
                   (events_since cropped_outside (save 1 "out.tiff" cropped_outside).2)))
        = k /\
      output_calls (events_since cropped_outside (save 1 "out.tiff" cropped_outside).2)
        = [] /\
      exists ex,
        @Raise unit (Ref.VipsError "extract_area: bad extract area") = Raise ex)) /\
    (output_calls (events_since cropped_outside (save 1 "out.tiff" cropped_outside).2)
       <> [] ->
     k = Z.to_nat (size_c (pixels small_image))).
Proof.
  apply (save_stops_at_first_failure 1 "out.tiff" cropped_outside
           (Raise (Ref.VipsError "extract_area: bad extract area"))
           (save 1 "out.tiff" cropped_outside).2 outside_crop 3 2 2 2 1
           (Ref.doc 4 3 2 UINT16) small_image []).
  - vm_compute. reflexivity.
  - reflexivity.
  - reflexivity.
  - vm_compute. reflexivity.
  - reflexivity.
  - vm_compute. reflexivity.
Defined.

Lemma save_without_channels_witness :
  opened (events_since no_channel (save 0 "out.tiff" no_channel).2) = [] /\
  printed (events_since no_channel (save 0 "out.tiff" no_channel).2) = [] /\
  written (events_since no_channel (save 0 "out.tiff" no_channel).2) = [] /\
  created (events_since no_channel (save 0 "out.tiff" no_channel).2) = ["out.tiff"].
Proof.
  apply (save_without_channels 0 "out.tiff" no_channel (Ok tt)
           (save 0 "out.tiff" no_channel).2
           (mkSlicer "small.ome.tiff" None (Some "<OME/>") (Some 0%nat)
                     (Some (0, 0, 1, 1)) (Some (1, 1)))
           0 0 1 1 0 (Ref.doc 4 3 0 UINT16)
           (mkImage (mkPixels 4 3 0 UINT16 EmptyString) EmptyString) []).
  - reflexivity.
  - reflexivity.
  - reflexivity.
  - reflexivity.
  - reflexivity.
  - simpl. lia.
  - vm_compute. reflexivity.
Defined.

Lemma crop_chain_is_last_crop_witness :
  exists c im ims single st1 c1,
    objs chained !! 2%nat = Some c /\
    images (Ref.doc 4 3 2 UINT16) = im :: ims /\
    get_image_dimensions 2 chained = (Ok (2, 2, size_c (pixels im)), chained) /\
    crop 0 1 1 2 2 loaded = (Ok single, st1) /\
    objs st1 !! single = Some c1 /\
    ome_metadata c = ome_metadata c1 /\
    cropped_dimensions c = cropped_dimensions c1 /\
    crop_info c = crop_info c1 /\
    ome_tiff_path c = ome_tiff_path c1.
Proof.
  apply (crop_chain_is_last_crop [(1, 0, 3, 3)] 0 small_slicer 0
           (Ref.doc 4 3 2 UINT16) 1 1 2 2 loaded 2 chained).
  - vm_compute. reflexivity.
  - reflexivity.
  - vm_compute. reflexivity.
  - vm_compute. reflexivity.
Defined.

Lemma save_page_arguments_witness :
  buffered (events_since cropped saved) !! 0%nat
    = Some (Ref.mkArray np_uint16 [2; 2] [11; 12; 21; 22]) /\
  "minisblack" = "minisblack" /\ "lzw" = "lzw" /\
  (512, 512) = (512, 512) /\ @None (list (string * string)) = None /\
  Some (Ref.render (Ref.doc 2 2 2 UINT16))
    = (if decide (0%nat = 0%nat) then ome_metadata small_crop else None).
Proof.
  apply (save_page_arguments 1 "out.tiff" cropped (Ok tt) saved small_crop 1 1 2 2
           0%nat
           (@mkWriteArgs Ref.types (Ref.mkArray np_uint16 [2; 2] [11; 12; 21; 22])
                         "minisblack" "lzw" (512, 512) np_uint16
                         (Some (Ref.render (Ref.doc 2 2 2 UINT16))) None)).
  - vm_compute. reflexivity.
  - reflexivity.
  - vm_compute. reflexivity.
  - vm_compute. reflexivity.
Defined.

Lemma crop_rejects_size_witness :
  exists st',
    crop 0 1 1 2 0 loaded =
      (Raise (Ref.ValidationError "Input should be greater than or equal to 1"), st') /\
    objs st' !! 0%nat = Some small_slicer /\
    docs st' !! 0%nat = Some (Ref.doc 4 3 2 UINT16) /\
    world st' = world loaded /\ log st' = log loaded.
Proof.
  apply (crop_rejects_size 0 1 1 2 0 loaded small_slicer 0 (Ref.doc 4 3 2 UINT16)
           small_image []).
  - vm_compute. reflexivity.
  - reflexivity.
  - vm_compute. reflexivity.
  - reflexivity.
  - right. split; reflexivity.
Defined.
